(** * A user ledger: balance engine and weekly analytics aggregator

    Shallow embedding of [main.py], [tasks.py] and [python_models.py].

    - The three tables are lists of rows; a row fetched through the ORM is
      identified by its position in its table, and an attribute assignment
      on it rewrites that position.
    - A request handler is a function from the stored state to an outcome
      (a returned value or a raised exception) and the state left behind.
    - The arithmetic of the amount columns is a parameter (class [Amount]),
      with Python's [float] as the instance the handlers run at.  Laws of
      signs are separate classes, asked for only by the statements that
      need them. *)

From stdpp Require Import base decidable option list strings pretty sorting.
From Stdlib Require Import ZArith Lia PrimFloat.

Open Scope Z_scope.

(** ** Amounts *)

(** The operations the handlers perform on amounts. *)
Class Amount (A : Type) := {
  amount_zero : A;
  (** [float(x) + y] in [post_transaction] *)
  amount_add : A → A → A;
  (** [x - y] in [patch_rollback_transaction] *)
  amount_sub : A → A → A;
  (** [x < 0] *)
  amount_lt0 : A → bool;
  (** [x > 0] *)
  amount_gt0 : A → bool;
  (** [x >= 1], the [Field(ge=1)] constraint *)
  amount_ge1 : A → bool;
}.

(** Facts about signs that any ordered number type satisfies. *)
Class AmountSign (A : Type) `{Amount A} : Prop := {
  amount_zero_lt0 : amount_lt0 amount_zero = false;
  amount_ge1_lt0 : ∀ a : A, amount_ge1 a = true → amount_lt0 a = false;
}.

(** Python's [float], the type of [RequestTransactionModel.amount] and of
    the sum at line 117: binary64, comparisons false on NaN. *)
#[export] Instance float_amount : Amount float := {|
  amount_zero := 0%float;
  amount_add := PrimFloat.add;
  amount_sub := PrimFloat.sub;
  amount_lt0 := λ x, PrimFloat.ltb x 0%float;
  amount_gt0 := λ x, PrimFloat.ltb 0%float x;
  amount_ge1 := λ x, PrimFloat.leb 1%float x;
|}.

(** Integer amounts, for worked instances without rounding. *)
#[export] Instance Z_amount : Amount Z := {|
  amount_zero := 0;
  amount_add := Z.add;
  amount_sub := Z.sub;
  amount_lt0 := λ x, x <? 0;
  amount_gt0 := λ x, 0 <? x;
  amount_ge1 := λ x, 1 <=? x;
|}.

#[export] Instance Z_amount_sign : AmountSign Z.
Proof. split; simpl; intros; lia. Qed.

(** ** python_models.py *)

Inductive CurrencyEnum :=
  USD | EUR | AUD | CAD | ARS | PLN | BTC | ETH | DOGE | USDT.

Inductive UserStatusEnum := ACTIVE | BLOCKED.

Inductive TransactionStatusEnum := processed | roll_backed.

#[export] Instance CurrencyEnum_eq_dec : EqDecision CurrencyEnum.
Proof. solve_decision. Defined.
#[export] Instance UserStatusEnum_eq_dec : EqDecision UserStatusEnum.
Proof. solve_decision. Defined.
#[export] Instance TransactionStatusEnum_eq_dec : EqDecision TransactionStatusEnum.
Proof. solve_decision. Defined.

(** The [.value] of a [StrEnum] member. *)
Definition currency_value (c : CurrencyEnum) : string :=
  match c with
  | USD => "USD" | EUR => "EUR" | AUD => "AUD" | CAD => "CAD" | ARS => "ARS"
  | PLN => "PLN" | BTC => "BTC" | ETH => "ETH" | DOGE => "DOGE" | USDT => "USDT"
  end.

Definition all_currencies : list CurrencyEnum :=
  [USD; EUR; AUD; CAD; ARS; PLN; BTC; ETH; DOGE; USDT].

(** [CurrencyEnum(s)]: the member whose value is [s], if any. *)
Definition currency_of_value (s : string) : option CurrencyEnum :=
  head (filter (λ c, currency_value c = s) all_currencies).

Module RequestTransactionModel.
Record t (A : Type) := Build { currency : CurrencyEnum; amount : A }.
Arguments Build {A}.
Arguments currency {A}.
Arguments amount {A}.
End RequestTransactionModel.

(** ** Exceptions *)

Inductive exception :=
| HTTPException (status_code : Z) (detail : string)
| TransactionNotExistsException (status_code : Z) (detail : string)
| TransactionDoesNotBelongToUserException (status_code : Z) (detail : string)
| TransactionAlreadyRollbackedException (status_code : Z) (detail : string)
| RequestValidationError
| MultipleResultsFound
| OverflowError.

Inductive result (T : Type) :=
| Return (v : T)
| Raise (e : exception).
Arguments Return {T}.
Arguments Raise {T}.

Definition HTTP_400_BAD_REQUEST : Z := 400.
Definition HTTP_404_NOT_FOUND : Z := 404.

(** ** Tables (the columns the handlers read and write) *)

Definition datetime := Z.

Module User.
Record t := Build { id : Z; email : string; status : UserStatusEnum; created : datetime }.
End User.

Module UserBalance.
Record t (A : Type) :=
  Build { id : Z; user_id : Z; currency : CurrencyEnum; amount : A; created : datetime }.
Arguments Build {A}.
Arguments id {A}.
Arguments user_id {A}.
Arguments currency {A}.
Arguments amount {A}.
Arguments created {A}.

(** [user_balance.amount = x] *)
Definition set_amount {A} (x : A) (b : t A) : t A :=
  Build (id b) (user_id b) (currency b) x (created b).
End UserBalance.

Module Transaction.
Record t (A : Type) :=
  Build { id : Z; user_id : Z; currency : CurrencyEnum; amount : A;
          status : TransactionStatusEnum; created : datetime }.
Arguments Build {A}.
Arguments id {A}.
Arguments user_id {A}.
Arguments currency {A}.
Arguments amount {A}.
Arguments status {A}.
Arguments created {A}.

(** [transaction.status = s] *)
Definition set_status {A} (s : TransactionStatusEnum) (tr : t A) : t A :=
  Build (id tr) (user_id tr) (currency tr) (amount tr) s (created tr).
End Transaction.

Record Session (A : Type) := MkSession {
  users : list User.t;
  balances : list (UserBalance.t A);
  transactions : list (Transaction.t A);
}.
Arguments MkSession {A}.
Arguments users {A}.
Arguments balances {A}.
Arguments transactions {A}.

(** ** Queries *)

(** Rows of a table that satisfy a [where] clause, with their positions,
    counted from [i]. *)
Fixpoint select_where {R : Type} (p : R → bool) (i : nat) (rows : list R)
  : list (nat * R) :=
  match rows with
  | [] => []
  | r :: rows' =>
      if p r then (i, r) :: select_where p (S i) rows'
      else select_where p (S i) rows'
  end.

(** [result.scalar_one_or_none()]: the only row, [None] when there is none,
    and [MultipleResultsFound] raised when there are several. *)
Definition scalar_one_or_none {R : Type} (p : R → bool) (rows : list R)
  : result (option (nat * R)) :=
  match select_where p 0 rows with
  | [] => Return None
  | [ir] => Return (Some ir)
  | _ :: _ :: _ => Raise MultipleResultsFound
  end.

(** [session.get(User, user_id)]: lookup by primary key. *)
Definition session_get_user (us : list User.t) (user_id : Z) : option User.t :=
  head (filter (λ u, User.id u = user_id) us).

(** ** Dates *)

(** A [datetime.date] is its proleptic Gregorian ordinal; a [timedelta] is a
    number of days. *)
Definition date := Z.
Definition date_min : date := 1.
Definition date_max : date := 3652059.

#[export] Instance result_bind : MBind result := λ _ _ k r,
  match r with
  | Return v => k v
  | Raise e => Raise e
  end.

(** [timedelta(weeks=w)]: at most 999999999 days either way. *)
Definition timedelta_weeks (w : Z) : result Z :=
  if decide (Z.abs (7 * w) ≤ 999999999) then Return (7 * w)
  else Raise OverflowError.

(** [d - delta] on dates: the result must be a date. *)
Definition date_sub (d : date) (days : Z) : result date :=
  if decide (date_min ≤ d - days ≤ date_max) then Return (d - days)
  else Raise OverflowError.

(** ** tasks.py *)

Module Tasks.

(** One dictionary of the result list. *)
Record entry (A : Type) := Entry {
  start_date : date;
  end_date : date;
  registered_users_count : Z;
  registered_and_deposit_users_count : Z;
  registered_and_not_rollbacked_deposit_users_count : Z;
  not_rollbacked_deposit_amount : A;
  not_rollbacked_withdraw_amount : A;
  transactions_count : Z;
  not_rollbacked_transactions_count : Z;
}.
Arguments Entry {A}.
Arguments start_date {A}.
Arguments end_date {A}.
Arguments registered_users_count {A}.
Arguments registered_and_deposit_users_count {A}.
Arguments registered_and_not_rollbacked_deposit_users_count {A}.
Arguments not_rollbacked_deposit_amount {A}.
Arguments not_rollbacked_withdraw_amount {A}.
Arguments transactions_count {A}.
Arguments not_rollbacked_transactions_count {A}.

(** The seven functions imported from [queries.py], read against the store
    the session is bound to; each takes [dt_gt] and [dt_lt]. *)
Record Queries (A : Type) := MkQueries {
  get_registered_users_count : date → date → Z;
  get_registered_and_deposit_users_count : date → date → Z;
  get_registered_and_not_rollbacked_deposit_users_count : date → date → Z;
  get_not_rollbacked_deposit_amount : date → date → A;
  get_not_rollbacked_withdraw_amount : date → date → A;
  get_transactions_count : date → date → Z;
  get_not_rollbacked_transactions_count : date → date → Z;
}.
Arguments MkQueries {A}.
Arguments get_registered_users_count {A}.
Arguments get_registered_and_deposit_users_count {A}.
Arguments get_registered_and_not_rollbacked_deposit_users_count {A}.
Arguments get_not_rollbacked_deposit_amount {A}.
Arguments get_not_rollbacked_withdraw_amount {A}.
Arguments get_transactions_count {A}.
Arguments get_not_rollbacked_transactions_count {A}.

Section Aggregator.
Context {A : Type} `{Amount A}.
Variable q : Queries A.

(** The dictionary built for the bucket between [dt_gt] and [dt_lt]. *)
Definition bucket_entry (dt_gt dt_lt : date) : entry A :=
  Entry dt_gt dt_lt
    (get_registered_users_count q dt_gt dt_lt)
    (get_registered_and_deposit_users_count q dt_gt dt_lt)
    (get_registered_and_not_rollbacked_deposit_users_count q dt_gt dt_lt)
    (get_not_rollbacked_deposit_amount q dt_gt dt_lt)
    (get_not_rollbacked_withdraw_amount q dt_gt dt_lt)
    (get_transactions_count q dt_gt dt_lt)
    (get_not_rollbacked_transactions_count q dt_gt dt_lt).

(** The argument of [any] at lines 50-60. *)
Definition metrics_positive (e : entry A) : list bool :=
  [ bool_decide (registered_users_count e > 0);
    bool_decide (registered_and_deposit_users_count e > 0);
    bool_decide (registered_and_not_rollbacked_deposit_users_count e > 0);
    amount_gt0 (not_rollbacked_deposit_amount e);
    amount_gt0 (not_rollbacked_withdraw_amount e);
    bool_decide (transactions_count e > 0);
    bool_decide (not_rollbacked_transactions_count e > 0) ].

Definition any (bs : list bool) : bool := existsb id bs.

(** The body of [for _ in range(weeks)], [n] iterations left. *)
Fixpoint scan (n : nat) (dt_gt dt_lt : date) (results : list (entry A))
  : result (list (entry A)) :=
  match n with
  | O => Return results
  | S n' =>
      let e := bucket_entry dt_gt dt_lt in
      let results' := if any (metrics_positive e) then results ++ [e] else results in
      week ← timedelta_weeks 1;
      dt_gt' ← date_sub dt_gt week;
      week ← timedelta_weeks 1;
      dt_lt' ← date_sub dt_lt week;
      scan n' dt_gt' dt_lt' results'
  end.

(** [get_transaction_analysis(weeks)], with [today] the clock reading. *)
Definition get_transaction_analysis (today : date) (weeks : Z)
  : result (list (entry A)) :=
  let dt_lt := today in
  span ← timedelta_weeks weeks;
  dt_gt ← date_sub today span;
  scan (Z.to_nat weeks) dt_gt dt_lt [].

(** The Celery task; [None] stands for a call without the argument. *)
Definition generate_transaction_analysis_task (today : date) (weeks : option Z)
  : result (list (entry A)) :=
  let weeks := default 52 weeks in
  get_transaction_analysis today weeks.

End Aggregator.
End Tasks.

(** ** main.py *)

Module Main.
Section Handlers.
Context {A : Type} `{Amount A}.

(** What [post_transaction] can hand back to the framework: the inserted
    row, or (on the missing-user path) an exception object. *)
Inductive response :=
| RespTransaction (tr : Transaction.t A)
| RespException (e : exception).

(** The [where] clause of both balance queries. *)
Definition balance_of (user_id : Z) (currency : CurrencyEnum)
    (b : UserBalance.t A) : bool :=
  bool_decide (UserBalance.user_id b = user_id)
  && bool_decide (UserBalance.currency b = currency).

(** [POST /{user_id}/transactions].  [now] is the clock reading and
    [new_id] the primary key the store gives the inserted row. *)
Definition post_transaction (now : datetime) (new_id : Z) (user_id : Z)
    (transaction : RequestTransactionModel.t A) (session : Session A)
  : result response * Session A :=
  match session_get_user (users session) user_id with
  | None =>
      (Return (RespException (HTTPException HTTP_404_NOT_FOUND
         ("User with id " +:+ pretty user_id +:+ " does not exist"))), session)
  | Some user =>
      if decide (User.status user ≠ ACTIVE) then
        (Raise (HTTPException HTTP_400_BAD_REQUEST
           ("User with id " +:+ pretty user_id +:+ " is blocked")), session)
      else
        match scalar_one_or_none
                (balance_of user_id (RequestTransactionModel.currency transaction))
                (balances session) with
        | Raise e => (Raise e, session)
        | Return None =>
            (Raise (HTTPException HTTP_404_NOT_FOUND
               ("User does not have balance in " +:+
                currency_value (RequestTransactionModel.currency transaction))),
             session)
        | Return (Some (i, user_balance)) =>
            let new_balance :=
              amount_add (UserBalance.amount user_balance)
                         (RequestTransactionModel.amount transaction) in
            if amount_lt0 new_balance then
              (Raise (HTTPException HTTP_400_BAD_REQUEST "Negative balance"), session)
            else
              let db_transaction :=
                Transaction.Build new_id user_id
                  (RequestTransactionModel.currency transaction)
                  (RequestTransactionModel.amount transaction)
                  processed now in
              (Return (RespTransaction db_transaction),
               MkSession (users session)
                 (<[i := UserBalance.set_amount new_balance user_balance]>
                    (balances session))
                 (transactions session ++ [db_transaction]))
        end
  end.

(** [PATCH /{user_id}/transactions/{transaction_id}]. *)
Definition patch_rollback_transaction (user_id transaction_id : Z)
    (session : Session A) : result (Transaction.t A) * Session A :=
  match session_get_user (users session) user_id with
  | None =>
      (Raise (HTTPException HTTP_404_NOT_FOUND
         ("User with id " +:+ pretty user_id +:+ " does not exist")), session)
  | Some user =>
      if decide (User.status user = BLOCKED) then
        (Raise (HTTPException HTTP_400_BAD_REQUEST
           ("User with id " +:+ pretty user_id +:+ " is BLOCKED")), session)
      else
        match scalar_one_or_none
                (λ tr, bool_decide (Transaction.id tr = transaction_id))
                (transactions session) with
        | Raise e => (Raise e, session)
        | Return None =>
            (Raise (TransactionNotExistsException HTTP_404_NOT_FOUND
               ("Transaction with id=`" +:+ pretty transaction_id +:+
                "` does not exist")), session)
        | Return (Some (i, transaction)) =>
            if decide (Transaction.user_id transaction ≠ user_id) then
              (Raise (TransactionDoesNotBelongToUserException HTTP_400_BAD_REQUEST
                 ("Transaction with id=`" +:+ pretty (Transaction.id transaction) +:+
                  "` does not belong to user with id=`" +:+
                  pretty (User.id user) +:+ "`")), session)
            else if decide (Transaction.status transaction = roll_backed) then
              (Raise (TransactionAlreadyRollbackedException HTTP_400_BAD_REQUEST
                 ("Transaction with id=`" +:+ pretty (Transaction.id transaction) +:+
                  "` is already rollbacked")), session)
            else
              match scalar_one_or_none
                      (balance_of user_id (Transaction.currency transaction))
                      (balances session) with
              | Raise e => (Raise e, session)
              | Return None =>
                  (Raise (HTTPException HTTP_404_NOT_FOUND "Balance not found"),
                   session)
              | Return (Some (j, user_balance)) =>
                  let new_balance :=
                    amount_sub (UserBalance.amount user_balance)
                               (Transaction.amount transaction) in
                  if amount_lt0 new_balance then
                    (Raise (HTTPException HTTP_400_BAD_REQUEST
                       "Balance can not be negative"), session)
                  else
                    let transaction' :=
                      Transaction.set_status roll_backed transaction in
                    (Return transaction',
                     MkSession (users session)
                       (<[j := UserBalance.set_amount new_balance user_balance]>
                          (balances session))
                       (<[i := transaction']> (transactions session)))
              end
        end
  end.

(** A message on the task queue: the task's positional arguments. *)
Record job := Job { job_args : list Z }.

(** [task.delay(...)]: put the call on the queue. *)
Definition delay (args : list Z) : job := Job args.

(** [GET /transactions/analysis]; [None] is the omitted query parameter. *)
Definition get_transaction_analysis (weeks : option Z) : job :=
  let weeks := default 52 weeks in
  let task := delay [] in
  task.

(** The worker's end of the queue: call the task on the message's
    arguments. *)
Definition run_job (q : Tasks.Queries A) (today : date) (j : job)
  : result (list (Tasks.entry A)) :=
  Tasks.generate_transaction_analysis_task q today (head (job_args j)).

(** The body of a transaction request as it arrives. *)
Record raw_transaction := RawTransaction { raw_currency : string; raw_amount : A }.

(** Validation against [RequestTransactionModel]: a member of
    [CurrencyEnum], and [amount >= 1]. *)
Definition validate (raw : raw_transaction) : result (RequestTransactionModel.t A) :=
  match currency_of_value (raw_currency raw) with
  | None => Raise RequestValidationError
  | Some currency =>
      if amount_ge1 (raw_amount raw)
      then Return (RequestTransactionModel.Build currency (raw_amount raw))
      else Raise RequestValidationError
  end.

(** The route: the body is validated, then the handler runs. *)
Definition route_post_transaction (now : datetime) (new_id : Z) (user_id : Z)
    (raw : raw_transaction) (session : Session A)
  : result response * Session A :=
  match validate raw with
  | Raise e => (Raise e, session)
  | Return transaction => post_transaction now new_id user_id transaction session
  end.

(** Requests to the balance engine, served one after the other. *)
Inductive request :=
| Apply (now : datetime) (new_id : Z) (user_id : Z)
        (transaction : RequestTransactionModel.t A)
| Rollback (user_id transaction_id : Z).

Definition handle (session : Session A) (r : request) : Session A :=
  match r with
  | Apply now new_id user_id transaction =>
      (post_transaction now new_id user_id transaction session).2
  | Rollback user_id transaction_id =>
      (patch_rollback_transaction user_id transaction_id session).2
  end.

Definition serve (rs : list request) (session : Session A) : Session A :=
  foldl handle session rs.

End Handlers.
End Main.

Arguments Main.response : clear implicits.
Arguments Main.raw_transaction : clear implicits.
Arguments Main.request : clear implicits.

(** ** main.py: the user handlers and the transaction listing *)

(** Adding two amounts that are not negative gives one that is not. *)
Class AmountOrder (A : Type) `{Amount A} : Prop := {
  amount_add_lt0 : ∀ a b : A,
    amount_lt0 a = false → amount_lt0 b = false →
    amount_lt0 (amount_add a b) = false;
}.

#[export] Instance Z_amount_order : AmountOrder Z.
Proof. split; simpl; intros; lia. Qed.

Definition HTTP_409_CONFLICT : Z := 409.

Definition user_status_value (s : UserStatusEnum) : string :=
  match s with ACTIVE => "ACTIVE" | BLOCKED => "BLOCKED" end.

(** [db_user.status = s] *)
Definition set_user_status (s : UserStatusEnum) (u : User.t) : User.t :=
  User.Build (User.id u) (User.email u) s (User.created u).

(** What the user handlers raise: their own exceptions, or one that comes
    out of a query. *)
Inductive user_exception :=
| UserAlreadyExistsException (status_code : Z) (detail : string)
| UserNotExistsException (status_code : Z) (detail : string)
| UserAlreadyHasThisStatus (status_code : Z) (detail : string)
| QueryException (e : exception).

Inductive user_result (T : Type) :=
| UReturn (v : T)
| URaise (e : user_exception).
Arguments UReturn {T}.
Arguments URaise {T}.

Module MainUsers.
Section Handlers.
Context {A : Type} `{Amount A}.

(** The rows [selectinload(User.user_balance)] attaches to a user. *)
Definition user_balance (session : Session A) (u : User.t) : list (UserBalance.t A) :=
  filter (λ b, UserBalance.user_id b = User.id u) (balances session).

(** [POST /users].  [now] is the clock reading; [new_id] and [balance_id]
    are the primary keys the store gives the inserted rows. *)
Definition post_user (now : datetime) (new_id : Z) (balance_id : CurrencyEnum → Z)
    (email : string) (session : Session A)
  : user_result (option (User.t * list (UserBalance.t A))) * Session A :=
  match scalar_one_or_none (λ u, bool_decide (User.email u = email))
          (users session) with
  | Raise e => (URaise (QueryException e), session)
  | Return (Some _) =>
      (URaise (UserAlreadyExistsException HTTP_409_CONFLICT
         ("User with email=`" +:+ email +:+ "` already exists")), session)
  | Return None =>
      let date_time_now := now in
      let db_user := User.Build new_id email ACTIVE date_time_now in
      let user_balances :=
        (λ currency,
           UserBalance.Build (balance_id currency) (User.id db_user) currency
             amount_zero date_time_now) <$> all_currencies in
      let session' :=
        MkSession (users session ++ [db_user]) (balances session ++ user_balances)
          (transactions session) in
      match scalar_one_or_none (λ u, bool_decide (User.id u = User.id db_user))
              (users session') with
      | Raise e => (URaise (QueryException e), session')
      | Return None => (UReturn None, session')
      | Return (Some (_, u)) => (UReturn (Some (u, user_balance session' u)), session')
      end
  end.

(** [PATCH /users/{user_id}]. *)
Definition patch_user (user_id : Z) (status : UserStatusEnum) (session : Session A)
  : user_result User.t * Session A :=
  match scalar_one_or_none (λ u, bool_decide (User.id u = user_id))
          (users session) with
  | Raise e => (URaise (QueryException e), session)
  | Return None =>
      (URaise (UserNotExistsException HTTP_404_NOT_FOUND
         ("User with id=`" +:+ pretty user_id +:+ "` does not exist")), session)
  | Return (Some (i, db_user)) =>
      if decide (User.status db_user = status) then
        (URaise (UserAlreadyHasThisStatus HTTP_400_BAD_REQUEST
           ("User is already " +:+ user_status_value status)), session)
      else
        let db_user' := set_user_status status db_user in
        (UReturn db_user',
         MkSession (<[i := db_user']> (users session)) (balances session)
           (transactions session))
  end.

(** [order_by(Transaction.created.desc())]: any order with the later rows
    first; rows written at the same time come as the sort leaves them. *)
Definition created_desc (t1 t2 : Transaction.t A) : Prop :=
  Transaction.created t2 ≤ Transaction.created t1.

#[export] Instance created_desc_dec (t1 t2 : Transaction.t A) :
  Decision (created_desc t1 t2).
Proof. unfold created_desc. apply _. Defined.

(** [if user_id:] holds for an id that is given and is not zero. *)
Definition truthy (user_id : option Z) : bool :=
  match user_id with
  | None => false
  | Some n => negb (bool_decide (n = 0))
  end.

(** [GET /transactions]; [None] is the omitted query parameter. *)
Definition get_transactions (user_id : option Z) (session : Session A)
  : list (Transaction.t A) :=
  let rows :=
    if truthy user_id
    then filter (λ tr, Some (Transaction.user_id tr) = user_id) (transactions session)
    else transactions session in
  merge_sort created_desc rows.

(** Every request that writes to the store. *)
Inductive action :=
| PostUser (now : datetime) (new_id : Z) (balance_id : CurrencyEnum → Z)
           (email : string)
| PatchUser (user_id : Z) (status : UserStatusEnum)
| PostTransaction (now : datetime) (new_id : Z) (user_id : Z)
                  (transaction : RequestTransactionModel.t A)
| PatchRollbackTransaction (user_id transaction_id : Z).

Definition perform (session : Session A) (a : action) : Session A :=
  match a with
  | PostUser now new_id balance_id email =>
      (post_user now new_id balance_id email session).2
  | PatchUser user_id status => (patch_user user_id status session).2
  | PostTransaction now new_id user_id transaction =>
      (Main.post_transaction now new_id user_id transaction session).2
  | PatchRollbackTransaction user_id transaction_id =>
      (Main.patch_rollback_transaction user_id transaction_id session).2
  end.

Definition run (acts : list action) (session : Session A) : Session A :=
  foldl perform session acts.

End Handlers.
End MainUsers.

Arguments MainUsers.action : clear implicits.

(** ** queries.py *)

Module Queries.
Section Spec.
Context {A : Type} `{Amount A}.
Variable session : Session A.

(** Modelled from the spec: [queries.py] is not among the sources.  The
    seven metrics of section 4.2 are computed for the bucket
    [[dt_gt, dt_lt)], with a row's [created] read as the day it was
    written. *)
Definition in_range (dt_gt dt_lt : date) (created : datetime) : bool :=
  bool_decide (dt_gt ≤ created < dt_lt).

(** Modelled from the spec: [queries.py], "not later rolled back". *)
Definition not_rollbacked (tr : Transaction.t A) : bool :=
  bool_decide (Transaction.status tr ≠ roll_backed).

(** Modelled from the spec: [queries.py]; a positive amount is a deposit. *)
Definition deposit (tr : Transaction.t A) : bool :=
  amount_gt0 (Transaction.amount tr).

(** Modelled from the spec: [queries.py]; a negative amount is a
    withdrawal. *)
Definition withdraw (tr : Transaction.t A) : bool :=
  amount_lt0 (Transaction.amount tr).

(** Modelled from the spec: [queries.py], the transactions in range. *)
Definition transactions_in (dt_gt dt_lt : date) : list (Transaction.t A) :=
  filter (λ tr, in_range dt_gt dt_lt (Transaction.created tr) = true)
    (transactions session).

(** Modelled from the spec: [queries.py], the users registered in range. *)
Definition registered_in (dt_gt dt_lt : date) : list User.t :=
  filter (λ u, in_range dt_gt dt_lt (User.created u) = true) (users session).

(** Modelled from the spec: [queries.py], "made at least one ... in
    range". *)
Definition made (keep : Transaction.t A → bool) (dt_gt dt_lt : date)
    (u : User.t) : bool :=
  existsb (λ tr, bool_decide (Transaction.user_id tr = User.id u) && keep tr)
    (transactions_in dt_gt dt_lt).

(** Modelled from the spec: [queries.py], a sum of amounts. *)
Definition sum (xs : list A) : A := foldr amount_add amount_zero xs.

(** Modelled from the spec: [queries.py], a count of rows. *)
Definition count {R : Type} (rows : list R) : Z := Z.of_nat (length rows).

(** Modelled from the spec: [queries.py], the seven metrics in the order of
    section 4.2. *)
Definition spec : Tasks.Queries A := {|
  Tasks.get_registered_users_count dt_gt dt_lt :=
    count (registered_in dt_gt dt_lt);
  Tasks.get_registered_and_deposit_users_count dt_gt dt_lt :=
    count (filter (λ u, made deposit dt_gt dt_lt u = true)
             (registered_in dt_gt dt_lt));
  Tasks.get_registered_and_not_rollbacked_deposit_users_count dt_gt dt_lt :=
    count (filter (λ u, made (λ tr, deposit tr && not_rollbacked tr)
                          dt_gt dt_lt u = true)
             (registered_in dt_gt dt_lt));
  Tasks.get_not_rollbacked_deposit_amount dt_gt dt_lt :=
    sum (Transaction.amount <$>
           filter (λ tr, deposit tr && not_rollbacked tr = true)
             (transactions_in dt_gt dt_lt));
  Tasks.get_not_rollbacked_withdraw_amount dt_gt dt_lt :=
    sum (Transaction.amount <$>
           filter (λ tr, withdraw tr && not_rollbacked tr = true)
             (transactions_in dt_gt dt_lt));
  Tasks.get_transactions_count dt_gt dt_lt :=
    count (transactions_in dt_gt dt_lt);
  Tasks.get_not_rollbacked_transactions_count dt_gt dt_lt :=
    count (filter (λ tr, not_rollbacked tr = true) (transactions_in dt_gt dt_lt));
|}.

End Spec.
End Queries.

(** ** Vocabulary of the statements *)

(** A balance row is in order when its amount is not below zero. *)
Definition non_negative {A : Type} `{Amount A} (user_balance : UserBalance.t A) : Prop :=
  amount_lt0 (UserBalance.amount user_balance) = false.

(** The dictionary of iteration [k] of the aggregator's loop, counted from
    the initial [dt_gt] and [dt_lt]. *)
Definition bucket {A : Type} (q : Tasks.Queries A) (dt_gt dt_lt : date) (k : nat)
  : Tasks.entry A :=
  Tasks.bucket_entry q (dt_gt - 7 * Z.of_nat k) (dt_lt - 7 * Z.of_nat k).

(** The condition of the [if] at line 50. *)
Definition emitted {A : Type} `{Amount A} (e : Tasks.entry A) : Prop :=
  Tasks.any (Tasks.metrics_positive e) = true.

#[export] Instance emitted_dec {A : Type} `{Amount A} (e : Tasks.entry A) :
  Decision (emitted e).
Proof. unfold emitted. apply _. Defined.

(** No two balance rows for one user and currency. *)
Definition balance_keys_unique {A : Type} `{Amount A} (session : Session A) : Prop :=
  ∀ user_id currency,
    (length (select_where (Main.balance_of user_id currency) 0 (balances session))
     ≤ 1)%nat.

(** The columns of a row that no handler assigns after the insert. *)
Definition user_key (u : User.t) : Z * string * datetime :=
  (User.id u, User.email u, User.created u).

Definition balance_key {A : Type} (b : UserBalance.t A)
  : Z * Z * CurrencyEnum * datetime :=
  (UserBalance.id b, UserBalance.user_id b, UserBalance.currency b,
   UserBalance.created b).

Definition transaction_key {A : Type} (tr : Transaction.t A)
  : Z * Z * CurrencyEnum * A * datetime :=
  (Transaction.id tr, Transaction.user_id tr, Transaction.currency tr,
   Transaction.amount tr, Transaction.created tr).

(** The balance rows [post_user] inserts for a user. *)
Definition opening_balances {A : Type} `{Amount A} (now : datetime) (new_id : Z)
    (balance_id : CurrencyEnum → Z) : list (UserBalance.t A) :=
  (λ currency,
     UserBalance.Build (balance_id currency) new_id currency amount_zero now)
  <$> all_currencies.

(** The user ids the store hands out during a sequence of requests. *)
Definition registered_ids {A : Type} (acts : list (MainUsers.action A)) : list Z :=
  omap (λ a, match a with
             | MainUsers.PostUser _ new_id _ _ => Some new_id
             | _ => None
             end) acts.

(** The dates the aggregator's loop computes are in range, for [n] iterations from
    [dt_gt] and [dt_lt]. *)
Definition scan_in_range (n : nat) (dt_gt dt_lt : date) : Prop :=
  n = 0%nat ∨
  (date_min ≤ dt_gt - 7 * Z.of_nat n ∧ dt_gt - 7 ≤ date_max ∧
   date_min ≤ dt_lt - 7 * Z.of_nat n ∧ dt_lt - 7 ≤ date_max).

(** No two user rows with one email. *)
Definition emails_unique {A : Type} (session : Session A) : Prop :=
  ∀ email,
    (length (select_where (λ u, bool_decide (User.email u = email)) 0
               (users session)) ≤ 1)%nat.

(** ** Sample stores *)

Module Sample.

Definition alice : User.t := User.Build 1 "alice@example.com" ACTIVE 100.
Definition bob : User.t := User.Build 2 "bob@example.com" BLOCKED 101.

Definition session0 : Session Z :=
  MkSession [alice; bob]
    [ UserBalance.Build 1 1 USD 50 100; UserBalance.Build 2 1 EUR 0 100;
      UserBalance.Build 3 2 USD 0 101; UserBalance.Build 4 2 EUR 0 101 ]
    [ Transaction.Build 1 1 USD 50 processed 110;
      Transaction.Build 2 1 EUR 30 roll_backed 111;
      Transaction.Build 3 2 USD 20 roll_backed 112;
      Transaction.Build 4 1 EUR 70 processed 113 ].

(** Scenario D: one user, registered long ago, whose only transaction is a
    deposit made ten days before [today], in the middle week of the last
    three. *)
Definition today : date := 739200.

Definition scenario_D : Session Z :=
  MkSession [User.Build 1 "alice@example.com" ACTIVE 738000]
    [UserBalance.Build 1 1 USD 100 738000]
    [Transaction.Build 1 1 USD 100 processed (today - 10)].

Definition queries_D : Tasks.Queries Z := Queries.spec scenario_D.

(** What the aggregator returns for it over three weeks. *)
Definition analysis_D : list (Tasks.entry Z) :=
  [ Tasks.Entry (today - 21) today 0 0 0 100 0 1 1;
    Tasks.Entry (today - 28) (today - 7) 0 0 0 100 0 1 1 ].

(** A store of [float] amounts: one user who has deposited 1.0. *)
Definition float_session : Session float :=
  MkSession [alice] [UserBalance.Build 1 1 USD 1%float 100]
    [Transaction.Build 1 1 USD 1%float processed 110].

(** A store with no rows, and a few requests to it. *)
Definition empty : Session Z := MkSession [] [] [].

Definition balance_ids (currency : CurrencyEnum) : Z :=
  match currency with
  | USD => 1 | EUR => 2 | AUD => 3 | CAD => 4 | ARS => 5
  | PLN => 6 | BTC => 7 | ETH => 8 | DOGE => 9 | USDT => 10
  end.

Definition opening : list (MainUsers.action Z) :=
  [ MainUsers.PostUser 100 1 balance_ids "alice@example.com";
    MainUsers.PostTransaction 110 1 1 (RequestTransactionModel.Build USD 50);
    MainUsers.PostUser 120 2 (λ c, 10 + balance_ids c) "alice@example.com";
    MainUsers.PatchUser 1 BLOCKED;
    MainUsers.PatchRollbackTransaction 1 1 ].

End Sample.

(** * Properties *)

(** ** Queries *)

Section Select.
Context {R : Type} (p : R → bool).

Lemma select_where_lookup (rows : list R) (k i : nat) (r : R) :
  (i, r) ∈ select_where p k rows →
  (k ≤ i)%nat ∧ rows !! (i - k)%nat = Some r ∧ p r = true.
Proof.
  revert k. induction rows as [|r0 rows IH]; intros k; simpl.
  - intros Hin. inversion Hin.
  - destruct (p r0) eqn:Hp.
    + rewrite elem_of_cons. intros [Heq | Hin].
      * inversion Heq; subst. replace (k - k)%nat with 0%nat by lia. auto with lia.
      * apply IH in Hin as (Hle & Hl & Hr).
        replace (i - k)%nat with (S (i - S k)) by lia. auto with lia.
    + intros Hin. apply IH in Hin as (Hle & Hl & Hr).
      replace (i - k)%nat with (S (i - S k)) by lia. auto with lia.
Qed.

Lemma select_where_app (rows rows' : list R) (k : nat) :
  select_where p k (rows ++ rows') =
  select_where p k rows ++ select_where p (k + length rows) rows'.
Proof.
  revert k. induction rows as [|r0 rows IH]; intros k; simpl.
  - by rewrite Nat.add_0_r.
  - rewrite IH. replace (S k + length rows)%nat with (k + S (length rows))%nat by lia.
    by destruct (p r0).
Qed.

(** Rewriting the selected row with one that still satisfies the clause
    leaves it the selected row. *)
Lemma select_where_insert (rows : list R) (k i : nat) (r r' : R) :
  select_where p k rows = [((k + i)%nat, r)] →
  p r' = true →
  select_where p k (<[i := r']> rows) = [((k + i)%nat, r')].
Proof.
  revert k i. induction rows as [|r0 rows IH]; intros k i; simpl; [done|].
  destruct (p r0) eqn:Hp0.
  - intros Heq Hp'. injection Heq as Hk Hr Hnil.
    assert (i = 0%nat) as -> by lia. simpl. by rewrite Hp', Hnil, Nat.add_0_r.
  - intros Heq Hp'.
    assert (((k + i)%nat, r) ∈ select_where p (S k) rows) as Hin
      by (rewrite Heq; by apply list_elem_of_singleton).
    apply select_where_lookup in Hin as (Hle & _ & _).
    destruct i as [|i]; [lia|]. simpl. rewrite Hp0.
    replace (k + S i)%nat with (S k + i)%nat in * by lia. by apply IH.
Qed.

Lemma scalar_one_or_none_Some (rows : list R) (i : nat) (r : R) :
  scalar_one_or_none p rows = Return (Some (i, r)) →
  select_where p 0 rows = [(i, r)].
Proof.
  unfold scalar_one_or_none.
  destruct (select_where p 0 rows) as [|ir [|? ?]]; intros Heq; by inversion Heq.
Qed.

Lemma scalar_one_or_none_lookup (rows : list R) (i : nat) (r : R) :
  scalar_one_or_none p rows = Return (Some (i, r)) →
  rows !! i = Some r ∧ p r = true.
Proof.
  intros Hs%scalar_one_or_none_Some.
  assert ((i, r) ∈ select_where p 0 rows) as Hin
    by (rewrite Hs; by apply list_elem_of_singleton).
  apply select_where_lookup in Hin as (_ & Hl & Hr).
  by rewrite Nat.sub_0_r in Hl.
Qed.

Lemma scalar_one_or_none_insert (rows : list R) (i : nat) (r r' : R) :
  scalar_one_or_none p rows = Return (Some (i, r)) →
  p r' = true →
  scalar_one_or_none p (<[i := r']> rows) = Return (Some (i, r')).
Proof.
  intros Hs%scalar_one_or_none_Some Hp'. unfold scalar_one_or_none.
  by rewrite (select_where_insert rows 0 i r r').
Qed.

(** After an insert of a row that satisfies the clause, a query that finds a
    single row finds the inserted one. *)
Lemma scalar_one_or_none_snoc (rows : list R) (r0 : R) (i : nat) (r : R) :
  p r0 = true →
  scalar_one_or_none p (rows ++ [r0]) = Return (Some (i, r)) →
  i = length rows ∧ r = r0 ∧ select_where p 0 rows = [].
Proof.
  intros Hp0 Hs%scalar_one_or_none_Some.
  rewrite select_where_app in Hs. simpl in Hs. rewrite Hp0 in Hs.
  destruct (select_where p 0 rows) as [|ir0 l]; simpl in Hs.
  - by inversion Hs.
  - injection Hs as _ Hnil. by destruct l.
Qed.

Lemma scalar_one_or_none_fresh (rows : list R) (r0 : R) :
  p r0 = true →
  select_where p 0 rows = [] →
  scalar_one_or_none p (rows ++ [r0]) = Return (Some (length rows, r0)).
Proof.
  intros Hp0 Hnil. unfold scalar_one_or_none.
  rewrite select_where_app, Hnil. simpl. by rewrite Hp0.
Qed.

End Select.

(** ** The balance engine *)

Section Engine.
Context {A : Type} `{Amount A}.

Implicit Types (session : Session A) (user : User.t).
Implicit Types (user_balance : UserBalance.t A) (tr : Transaction.t A).
Implicit Types (transaction : RequestTransactionModel.t A).

Lemma set_amount_id user_balance :
  UserBalance.set_amount (UserBalance.amount user_balance) user_balance = user_balance.
Proof. by destruct user_balance. Qed.

Lemma set_amount_set_amount (x y : A) user_balance :
  UserBalance.set_amount x (UserBalance.set_amount y user_balance) =
  UserBalance.set_amount x user_balance.
Proof. done. Qed.

Lemma balance_of_set_amount user_id currency (x : A) user_balance :
  Main.balance_of user_id currency (UserBalance.set_amount x user_balance) =
  Main.balance_of user_id currency user_balance.
Proof. done. Qed.

(** Every path of [post_transaction] that raises has written nothing. *)
Lemma post_transaction_raise_unchanged now new_id user_id transaction session e s' :
  Main.post_transaction now new_id user_id transaction session = (Raise e, s') →
  s' = session.
Proof.
  unfold Main.post_transaction.
  destruct (session_get_user _ _) as [user|]; [|congruence].
  destruct (decide _); [congruence|].
  destruct (scalar_one_or_none _ _) as [[[i user_balance]|]|]; try congruence.
  destruct (amount_lt0 _); congruence.
Qed.

(** Every path of [post_transaction] that inserts nothing leaves the store
    as it was; the other path appends one row. *)
Lemma post_transaction_shape now new_id user_id transaction session r s' :
  Main.post_transaction now new_id user_id transaction session = (r, s') →
  (∀ tr, r ≠ Return (Main.RespTransaction tr)) ∧ s' = session ∨
  ∃ i user_balance,
    scalar_one_or_none
      (Main.balance_of user_id (RequestTransactionModel.currency transaction))
      (balances session) = Return (Some (i, user_balance)) ∧
    let new_balance := amount_add (UserBalance.amount user_balance)
                         (RequestTransactionModel.amount transaction) in
    let db_transaction :=
      Transaction.Build new_id user_id
        (RequestTransactionModel.currency transaction)
        (RequestTransactionModel.amount transaction) processed now in
    amount_lt0 new_balance = false ∧
    r = Return (Main.RespTransaction db_transaction) ∧
    s' = MkSession (users session)
           (<[i := UserBalance.set_amount new_balance user_balance]> (balances session))
           (transactions session ++ [db_transaction]).
Proof.
  unfold Main.post_transaction.
  destruct (session_get_user _ _) as [user|];
    [|intros [= <- <-]; left; by split].
  destruct (decide _); [intros [= <- <-]; left; by split|].
  destruct (scalar_one_or_none _ _) as [[[i user_balance]|]|] eqn:Hb;
    try (intros [= <- <-]; left; by split).
  destruct (amount_lt0 _) eqn:Hneg; [intros [= <- <-]; left; by split|].
  intros [= <- <-]. right. by exists i, user_balance.
Qed.

(** Every path of [patch_rollback_transaction] that raises has written
    nothing. *)
Lemma patch_rollback_transaction_raise_unchanged user_id transaction_id session e s' :
  Main.patch_rollback_transaction user_id transaction_id session = (Raise e, s') →
  s' = session.
Proof.
  unfold Main.patch_rollback_transaction.
  destruct (session_get_user _ _) as [user|]; [|congruence].
  destruct (decide _); [congruence|].
  destruct (scalar_one_or_none _ (transactions session)) as [[[i tr]|]|];
    try congruence.
  destruct (decide _); [congruence|].
  destruct (decide _); [congruence|].
  destruct (scalar_one_or_none _ (balances session)) as [[[j user_balance]|]|];
    try congruence.
  destruct (amount_lt0 _); congruence.
Qed.

Lemma patch_rollback_transaction_shape user_id transaction_id session r s' :
  Main.patch_rollback_transaction user_id transaction_id session = (r, s') →
  (∃ e, r = Raise e) ∧ s' = session ∨
  ∃ i tr j user_balance,
    scalar_one_or_none (λ tr, bool_decide (Transaction.id tr = transaction_id))
      (transactions session) = Return (Some (i, tr)) ∧
    Transaction.user_id tr = user_id ∧
    Transaction.status tr = processed ∧
    scalar_one_or_none (Main.balance_of user_id (Transaction.currency tr))
      (balances session) = Return (Some (j, user_balance)) ∧
    let new_balance :=
      amount_sub (UserBalance.amount user_balance) (Transaction.amount tr) in
    amount_lt0 new_balance = false ∧
    r = Return (Transaction.set_status roll_backed tr) ∧
    s' = MkSession (users session)
           (<[j := UserBalance.set_amount new_balance user_balance]> (balances session))
           (<[i := Transaction.set_status roll_backed tr]> (transactions session)).
Proof.
  unfold Main.patch_rollback_transaction.
  destruct (session_get_user _ _) as [user|];
    [|intros [= <- <-]; left; by eauto].
  destruct (decide _); [intros [= <- <-]; left; by eauto|].
  destruct (scalar_one_or_none _ (transactions session)) as [[[i tr]|]|] eqn:Ht;
    try (intros [= <- <-]; left; by eauto).
  destruct (decide (Transaction.user_id tr ≠ user_id)) as [|Hown];
    [intros [= <- <-]; left; by eauto|].
  destruct (decide (Transaction.status tr = roll_backed)) as [|Hst];
    [intros [= <- <-]; left; by eauto|].
  destruct (scalar_one_or_none _ (balances session)) as [[[j user_balance]|]|] eqn:Hb;
    try (intros [= <- <-]; left; by eauto).
  destruct (amount_lt0 _) eqn:Hneg; [intros [= <- <-]; left; by eauto|].
  intros [= <- <-]. right. exists i, tr, j, user_balance.
  repeat split; try done.
  - by destruct (decide (Transaction.user_id tr = user_id)).
  - by destruct (Transaction.status tr).
Qed.

(** C2.  [Apply] on an existing ACTIVE user whose balance row in the
    currency holds [current_amount]: when [current_amount + amount] is below
    zero the call raises the 400 "Negative balance" error and the store is
    as before; otherwise (and so when the sum is zero) it returns the new
    row, the balance row holds the sum, every other balance row is as
    before, and the transaction table has gained exactly one row, PROCESSED
    and carrying the requested amount. *)
Theorem post_transaction_apply `{!AmountSign A}
    now new_id user_id transaction session user i user_balance :
  session_get_user (users session) user_id = Some user →
  User.status user = ACTIVE →
  scalar_one_or_none
    (Main.balance_of user_id (RequestTransactionModel.currency transaction))
    (balances session) = Return (Some (i, user_balance)) →
  let current_amount := UserBalance.amount user_balance in
  let amount := RequestTransactionModel.amount transaction in
  let new_amount := amount_add current_amount amount in
  (amount_lt0 new_amount = true →
     Main.post_transaction now new_id user_id transaction session =
       (Raise (HTTPException 400 "Negative balance"), session)) ∧
  (amount_lt0 new_amount = false ∨ new_amount = amount_zero →
     ∃ tr s',
       Main.post_transaction now new_id user_id transaction session =
         (Return (Main.RespTransaction tr), s') ∧
       users s' = users session ∧
       balances s' =
         <[i := UserBalance.set_amount new_amount user_balance]> (balances session) ∧
       UserBalance.amount <$> balances s' !! i = Some new_amount ∧
       transactions s' = transactions session ++ [tr] ∧
       Transaction.status tr = processed ∧
       Transaction.amount tr = amount ∧
       Transaction.user_id tr = user_id ∧
       Transaction.currency tr = RequestTransactionModel.currency transaction).
Proof.
  intros Huser Hactive Hbal current_amount amount new_amount.
  unfold Main.post_transaction. rewrite Huser, Hbal.
  destruct (decide (User.status user ≠ ACTIVE)) as [Hne|_]; [done|].
  fold current_amount amount new_amount. split.
  - by intros ->.
  - intros Hok.
    assert (amount_lt0 new_amount = false) as ->.
    { destruct Hok as [Hok| ->]; [done|apply amount_zero_lt0]. }
    eexists _, _. split; [reflexivity|]. simpl. repeat split.
    apply scalar_one_or_none_lookup in Hbal as [Hl _].
    rewrite list_lookup_insert_eq; [done|]. by eapply lookup_lt_Some.
Qed.

(** C5, the missing-user path.  For a [user_id] that is not in the user
    table [post_transaction] raises nothing: it returns the 404 exception
    as its value, with the store as before. *)
Theorem post_transaction_missing_user
    now new_id user_id transaction session :
  session_get_user (users session) user_id = None →
  Main.post_transaction now new_id user_id transaction session =
    (Return (Main.RespException (HTTPException 404
       ("User with id " +:+ pretty user_id +:+ " does not exist"))), session)
  ∧ ∀ e s', Main.post_transaction now new_id user_id transaction session ≠ (Raise e, s').
Proof.
  intros Huser. unfold Main.post_transaction. rewrite Huser. by split.
Qed.

(** The other failures of [Apply] are raised, and nothing is written. *)
Lemma post_transaction_blocked now new_id user_id transaction session user :
  session_get_user (users session) user_id = Some user →
  User.status user = BLOCKED →
  Main.post_transaction now new_id user_id transaction session =
    (Raise (HTTPException 400
       ("User with id " +:+ pretty user_id +:+ " is blocked")), session).
Proof.
  intros Huser Hblocked. unfold Main.post_transaction. rewrite Huser, Hblocked.
  destruct (decide (BLOCKED ≠ ACTIVE)) as [_|Hn]; [done|by destruct Hn].
Qed.

Lemma post_transaction_no_balance now new_id user_id transaction session user :
  session_get_user (users session) user_id = Some user →
  User.status user = ACTIVE →
  scalar_one_or_none
    (Main.balance_of user_id (RequestTransactionModel.currency transaction))
    (balances session) = Return None →
  Main.post_transaction now new_id user_id transaction session =
    (Raise (HTTPException 404
       ("User does not have balance in " +:+
        currency_value (RequestTransactionModel.currency transaction))), session).
Proof.
  intros Huser Hactive Hbal. unfold Main.post_transaction.
  rewrite Huser, Hbal, Hactive. by destruct (decide (ACTIVE ≠ ACTIVE)).
Qed.

(** C6.  A [Rollback] of a PROCESSED transaction whose amount, taken off
    the balance row of the request, gives a balance below zero always raises
    and leaves the store, and with it the balance amount and the PROCESSED
    status, as before; past the user and ownership checks the error is the
    400 "Balance can not be negative". *)
Theorem patch_rollback_transaction_negative
    user_id transaction_id session i tr j user_balance :
  scalar_one_or_none (λ tr, bool_decide (Transaction.id tr = transaction_id))
    (transactions session) = Return (Some (i, tr)) →
  Transaction.status tr = processed →
  scalar_one_or_none (Main.balance_of user_id (Transaction.currency tr))
    (balances session) = Return (Some (j, user_balance)) →
  amount_lt0 (amount_sub (UserBalance.amount user_balance) (Transaction.amount tr)) = true →
  (∃ e, Main.patch_rollback_transaction user_id transaction_id session =
          (Raise e, session)) ∧
  (∀ user,
     session_get_user (users session) user_id = Some user →
     User.status user ≠ BLOCKED →
     Transaction.user_id tr = user_id →
     Main.patch_rollback_transaction user_id transaction_id session =
       (Raise (HTTPException 400 "Balance can not be negative"), session)) ∧
  balances session !! j = Some user_balance ∧
  transactions session !! i = Some tr.
Proof.
  intros Htr Hst Hbal Hneg. split; [|split; [|split]].
  - unfold Main.patch_rollback_transaction. rewrite Htr, Hbal, Hneg.
    destruct (session_get_user _ _) as [user|]; [|by eauto].
    destruct (decide _); [by eauto|].
    destruct (decide _); [by eauto|].
    destruct (decide _); by eauto.
  - intros user Huser Hnb Hown.
    unfold Main.patch_rollback_transaction. rewrite Huser, Htr, Hbal, Hneg.
    destruct (decide (User.status user = BLOCKED)); [done|].
    destruct (decide (Transaction.user_id tr ≠ user_id)); [done|].
    destruct (decide (Transaction.status tr = roll_backed)); [congruence|done].
  - by apply scalar_one_or_none_lookup in Hbal as [? _].
  - by apply scalar_one_or_none_lookup in Htr as [? _].
Qed.

(** One request changes no balance row into a negative one. *)
Lemma handle_non_negative session (r : Main.request A) :
  Forall non_negative (balances session) →
  Forall non_negative (balances (Main.handle session r)).
Proof.
  intros Hinv. destruct r as [now new_id user_id transaction|user_id transaction_id];
    simpl.
  - destruct (Main.post_transaction _ _ _ _ _) as [r s'] eqn:Hrun.
    apply post_transaction_shape in Hrun
      as [[_ ->]|(i & user_balance & _ & Hneg & _ & ->)]; [done|].
    simpl. by apply Forall_insert.
  - destruct (Main.patch_rollback_transaction _ _ _) as [r s'] eqn:Hrun.
    apply patch_rollback_transaction_shape in Hrun
      as [[_ ->]|(i & tr & j & user_balance & _ & _ & _ & _ & Hneg & _ & ->)]; [done|].
    simpl. by apply Forall_insert.
Qed.


(** One request leaves every transaction row in place, and changes at most
    the status of one, from PROCESSED to ROLLBACKED. *)
Lemma handle_transaction_status session (r : Main.request A) k t :
  transactions session !! k = Some t →
  ∃ t', transactions (Main.handle session r) !! k = Some t' ∧
    (t' = t ∨
     Transaction.status t = processed ∧ t' = Transaction.set_status roll_backed t).
Proof.
  intros Hk. destruct r as [now new_id user_id transaction|user_id transaction_id];
    simpl.
  - destruct (Main.post_transaction _ _ _ _ _) as [r s'] eqn:Hrun.
    apply post_transaction_shape in Hrun
      as [[_ ->]|(i & user_balance & _ & _ & _ & ->)]; [by eauto|].
    simpl. exists t. split; [|by left]. by apply lookup_app_l_Some.
  - destruct (Main.patch_rollback_transaction _ _ _) as [r s'] eqn:Hrun.
    apply patch_rollback_transaction_shape in Hrun
      as [[_ ->]|(i & tr & j & user_balance & Htr & _ & Hst & _ & _ & _ & ->)];
      [by eauto|].
    simpl. apply scalar_one_or_none_lookup in Htr as [Htr _].
    destruct (decide (i = k)) as [->|Hne].
    + rewrite Hk in Htr. injection Htr as ->.
      exists (Transaction.set_status roll_backed tr). split; [|by right].
      apply list_lookup_insert_eq. by eapply lookup_lt_Some.
    + exists t. split; [|by left]. by rewrite list_lookup_insert_ne.
Qed.

(** ROLLBACKED is terminal: no sequence of requests touches such a row. *)
Lemma serve_rolled_back session (rs : list (Main.request A)) k t :
  transactions session !! k = Some t →
  Transaction.status t = roll_backed →
  transactions (Main.serve rs session) !! k = Some t.
Proof.
  unfold Main.serve. revert session.
  induction rs as [|r rs IH]; intros session Hk Hst; simpl; [done|].
  apply IH; [|done].
  destruct (handle_transaction_status session r k t Hk) as (t' & Hk' & [->|[Hp _]]);
    [done|congruence].
Qed.

(** C7.  A transaction row only ever changes by its status going from
    PROCESSED to ROLLBACKED, and a ROLLBACKED row never changes again.  A
    [Rollback] of a ROLLBACKED transaction always raises and writes nothing;
    past the user and ownership checks the error raised is
    [TransactionAlreadyRollbackedException]. *)
Theorem patch_rollback_transaction_rolled_back
    user_id transaction_id session i tr :
  scalar_one_or_none (λ tr, bool_decide (Transaction.id tr = transaction_id))
    (transactions session) = Return (Some (i, tr)) →
  Transaction.status tr = roll_backed →
  (∃ e, Main.patch_rollback_transaction user_id transaction_id session =
          (Raise e, session)) ∧
  (∀ user,
     session_get_user (users session) user_id = Some user →
     User.status user ≠ BLOCKED →
     Transaction.user_id tr = user_id →
     Main.patch_rollback_transaction user_id transaction_id session =
       (Raise (TransactionAlreadyRollbackedException 400
          ("Transaction with id=`" +:+ pretty (Transaction.id tr) +:+
           "` is already rollbacked")), session)) ∧
  (∀ rs : list (Main.request A),
     transactions (Main.serve rs session) !! i = Some tr) ∧
  (∀ (r : Main.request A) s k t,
     transactions s !! k = Some t →
     ∃ t', transactions (Main.handle s r) !! k = Some t' ∧
       (t' = t ∨
        Transaction.status t = processed ∧
        t' = Transaction.set_status roll_backed t)).
Proof.
  intros Htr Hst. repeat split.
  - unfold Main.patch_rollback_transaction. rewrite Htr.
    destruct (session_get_user _ _) as [user|]; [|by eauto].
    destruct (decide _); [by eauto|].
    destruct (decide _); [by eauto|].
    destruct (decide _); [by eauto|done].
  - intros user Huser Hnb Hown.
    unfold Main.patch_rollback_transaction. rewrite Huser, Htr.
    destruct (decide (User.status user = BLOCKED)); [done|].
    destruct (decide (Transaction.user_id tr ≠ user_id)); [done|].
    destruct (decide (Transaction.status tr = roll_backed)); [done|done].
  - intros rs. apply scalar_one_or_none_lookup in Htr as [Htr _].
    by apply serve_rolled_back.
  - intros r s k t. apply handle_transaction_status.
Qed.

(** What a [Rollback] does to the store an [Apply] has just left, given the
    row it finds for the new transaction's id. *)
Lemma rollback_after_apply
    now new_id user_id transaction session tr s1 r s2 :
  Main.post_transaction now new_id user_id transaction session =
    (Return (Main.RespTransaction tr), s1) →
  Main.patch_rollback_transaction user_id (Transaction.id tr) s1 = (r, s2) →
  ∃ i user_balance,
    scalar_one_or_none
      (Main.balance_of user_id (RequestTransactionModel.currency transaction))
      (balances session) = Return (Some (i, user_balance)) ∧
    let amount := RequestTransactionModel.amount transaction in
    let restored :=
      amount_sub (amount_add (UserBalance.amount user_balance) amount) amount in
    (select_where (λ tr, bool_decide (Transaction.id tr = new_id)) 0
       (transactions session) ≠ [] ∧
     r = Raise MultipleResultsFound ∧ s2 = s1) ∨
    (amount_lt0 restored = true ∧
     r = Raise (HTTPException 400 "Balance can not be negative") ∧ s2 = s1) ∨
    (amount_lt0 restored = false ∧
     r = Return (Transaction.set_status roll_backed tr) ∧
     s2 = MkSession (users session)
            (<[i := UserBalance.set_amount restored user_balance]> (balances session))
            (transactions session ++ [Transaction.set_status roll_backed tr])).
Proof.
  intros Happly Hroll.
  unfold Main.post_transaction in Happly.
  destruct (session_get_user (users session) user_id) as [user|] eqn:Huser;
    [|congruence].
  destruct (decide (User.status user ≠ ACTIVE)) as [|Hactive]; [congruence|].
  destruct (scalar_one_or_none _ (balances session))
    as [[[i user_balance]|]|] eqn:Hbal; try congruence.
  destruct (amount_lt0 _) eqn:Hneg; [congruence|].
  revert Happly. intros [= <- <-]. exists i, user_balance. split; [done|].
  simpl in *. revert Hroll. unfold Main.patch_rollback_transaction. simpl.
  rewrite Huser.
  destruct (decide (User.status user = BLOCKED)) as [Hb|_].
  { destruct Hactive. rewrite Hb. discriminate. }
  set (db_transaction := Transaction.Build new_id user_id _ _ processed now).
  set (p := λ tr : Transaction.t A, bool_decide (Transaction.id tr = new_id)).
  assert (p db_transaction = true) as Hp by (by apply bool_decide_eq_true).
  destruct (select_where p 0 (transactions session)) as [|ir0 l] eqn:Hsel.
  - rewrite (scalar_one_or_none_fresh p _ db_transaction Hp Hsel).
    destruct (decide (Transaction.user_id db_transaction ≠ user_id)); [done|].
    destruct (decide (Transaction.status db_transaction = roll_backed)); [done|].
    simpl.
    rewrite (scalar_one_or_none_insert _ _ i user_balance _ Hbal)
      by (rewrite balance_of_set_amount;
          by apply scalar_one_or_none_lookup in Hbal as [_ ?]).
    simpl. destruct (amount_lt0 (amount_sub _ _)) eqn:Hneg'.
    + intros [= <- <-]. right. left. done.
    + intros [= <- <-]. right. right. split; [done|]. split; [done|]. f_equal.
      * by rewrite list_insert_insert_eq.
      * replace (length (transactions session))
          with (length (transactions session) + 0)%nat by lia.
        by rewrite insert_app_r.
  - unfold scalar_one_or_none. rewrite select_where_app, Hsel. simpl.
    rewrite Hp. simpl. destruct l; intros [= <- <-]; left; done.
Qed.

(** C4.  A successful [Apply] followed by a successful [Rollback] of the
    transaction it created leaves every other balance row as it was and
    sets the balance to [(b + delta) - delta], computed as the two handlers
    compute it, whatever the sign of [delta]; the balance table is as
    before the [Apply] when that value is [b], and the transaction is
    ROLLBACKED. *)
Theorem apply_rollback_round_trip
    now new_id user_id transaction session tr s1 user_id' tr' s2 :
  Main.post_transaction now new_id user_id transaction session =
    (Return (Main.RespTransaction tr), s1) →
  Main.patch_rollback_transaction user_id' (Transaction.id tr) s1 = (Return tr', s2) →
  ∃ i user_balance,
    scalar_one_or_none
      (Main.balance_of user_id (RequestTransactionModel.currency transaction))
      (balances session) = Return (Some (i, user_balance)) ∧
    let b := UserBalance.amount user_balance in
    let delta := RequestTransactionModel.amount transaction in
    balances s2 =
      <[i := UserBalance.set_amount (amount_sub (amount_add b delta) delta)
               user_balance]> (balances session) ∧
    (amount_sub (amount_add b delta) delta = b →
       balances s2 = balances session) ∧
    transactions s2 = transactions session ++ [tr'] ∧
    tr' = Transaction.set_status roll_backed tr.
Proof.
  intros Happly Hroll.
  assert (user_id' = user_id) as ->.
  { pose proof Happly as Hshape. apply post_transaction_shape in Hshape
      as [[Hno _]|(i & user_balance & _ & _ & [= ->] & ->)]; [by destruct (Hno tr)|].
    pose proof Hroll as Hshape. apply patch_rollback_transaction_shape in Hshape
      as [[[e ?] _]|(k & t & _ & _ & Ht & Hown & _)]; [done|].
    simpl in Ht. apply scalar_one_or_none_snoc in Ht as (_ & -> & _).
    - by rewrite <- Hown.
    - by apply bool_decide_eq_true. }
  destruct (rollback_after_apply _ _ _ _ _ _ _ _ _ Happly Hroll)
    as (i & user_balance & Hbal & [(_ & ? & _)|[(_ & ? & _)|(_ & [= ->] & ->)]]);
    [done|done|].
  exists i, user_balance. split; [done|]. simpl.
  split; [done|]. split; [|done].
  intros Hexact. rewrite Hexact, set_amount_id.
  apply scalar_one_or_none_lookup in Hbal as [Hl _].
  by rewrite list_insert_id.
Qed.

End Engine.

(** ** The aggregator *)

Section Aggregator.
Context {A : Type} `{Amount A}.
Variable q : Tasks.Queries A.

Implicit Types (e : Tasks.entry A) (results : list (Tasks.entry A)).


Lemma scan_S n dt_gt dt_lt acc :
  Tasks.scan q (S n) dt_gt dt_lt acc =
  match date_sub dt_gt 7 with
  | Return dt_gt' =>
      match date_sub dt_lt 7 with
      | Return dt_lt' =>
          let e := Tasks.bucket_entry q dt_gt dt_lt in
          Tasks.scan q n dt_gt' dt_lt'
            (if Tasks.any (Tasks.metrics_positive e) then acc ++ [e] else acc)
      | Raise e => Raise e
      end
  | Raise e => Raise e
  end.
Proof. reflexivity. Qed.

Lemma scan_results n : ∀ dt_gt dt_lt acc results,
  Tasks.scan q n dt_gt dt_lt acc = Return results →
  results = acc ++ filter emitted (bucket q dt_gt dt_lt <$> seq 0 n).
Proof.
  induction n as [|n IH]; intros dt_gt dt_lt acc results.
  - simpl. intros [= <-]. by rewrite app_nil_r.
  - rewrite scan_S.
    destruct (date_sub dt_gt 7) as [dt_gt'|] eqn:Hgt; [|done].
    destruct (date_sub dt_lt 7) as [dt_lt'|] eqn:Hlt; [|done].
    unfold date_sub in Hgt, Hlt.
    destruct (decide _) in Hgt; [|done]. destruct (decide _) in Hlt; [|done].
    injection Hgt as <-. injection Hlt as <-.
    intros Hscan%IH. subst results. cbn [seq fmap list_fmap].
    rewrite <- fmap_S_seq, <- list_fmap_compose.
    assert (bucket q dt_gt dt_lt 0 = Tasks.bucket_entry q dt_gt dt_lt) as Hb0.
    { unfold bucket. by rewrite !Z.sub_0_r. }
    rewrite Hb0.
    assert (bucket q (dt_gt - 7) (dt_lt - 7) <$> seq 0 n =
            (bucket q dt_gt dt_lt ∘ S) <$> seq 0 n) as ->.
    { apply list_fmap_ext. intros _ k _. unfold bucket. simpl. f_equal; lia. }
    rewrite filter_cons.
    destruct (decide (emitted (Tasks.bucket_entry q dt_gt dt_lt))) as [He|He];
      unfold emitted in He.
    + rewrite He. by rewrite <- app_assoc.
    + apply not_true_is_false in He. by rewrite He.
Qed.

(** The loop runs to its end when the dates it computes stay in range. *)
Lemma scan_returns n : ∀ dt_gt dt_lt acc,
  date_min ≤ dt_gt - 7 * Z.of_nat n → dt_gt ≤ dt_lt → dt_lt ≤ date_max →
  ∃ results, Tasks.scan q n dt_gt dt_lt acc = Return results.
Proof.
  induction n as [|n IH]; intros dt_gt dt_lt acc Hmin Hle Hmax.
  - simpl. by eauto.
  - rewrite scan_S. unfold date_sub, date_min, date_max in *.
    rewrite !decide_True by lia. apply IH; lia.
Qed.

Lemma get_transaction_analysis_results today weeks results :
  Tasks.get_transaction_analysis q today weeks = Return results →
  results =
    filter emitted (bucket q (today - 7 * weeks) today <$> seq 0 (Z.to_nat weeks)).
Proof.
  unfold Tasks.get_transaction_analysis, mbind, result_bind, timedelta_weeks, date_sub.
  destruct (decide _); [|done]. destruct (decide _); [|done].
  by intros ->%scan_results.
Qed.

Lemma get_transaction_analysis_returns today weeks :
  0 ≤ weeks → date_min ≤ today - 14 * weeks → today ≤ date_max →
  ∃ results, Tasks.get_transaction_analysis q today weeks = Return results.
Proof.
  intros Hw Hmin Hmax.
  unfold Tasks.get_transaction_analysis, mbind, result_bind, timedelta_weeks, date_sub.
  unfold date_min, date_max in *.
  rewrite !decide_True by lia. apply scan_returns; unfold date_min, date_max; lia.
Qed.

(** C1.  Every entry that [get_transaction_analysis(weeks)] emits spans
    [7 * weeks] days and ends a whole number [k < weeks] of weeks before
    [today]: the buckets are [weeks] weeks long and one week apart, so they
    are 7 days long and disjoint only for [weeks = 1]. *)
Theorem get_transaction_analysis_span today weeks results :
  Tasks.get_transaction_analysis q today weeks = Return results →
  ∀ e, e ∈ results →
    Tasks.end_date e - Tasks.start_date e = 7 * weeks ∧
    ∃ k : Z, 0 ≤ k < weeks ∧ Tasks.end_date e = today - 7 * k.
Proof.
  intros ->%get_transaction_analysis_results e
    [_ (k & -> & Hk%elem_of_seq)%list_elem_of_fmap]%list_elem_of_filter.
  simpl. split; [lia|]. exists (Z.of_nat k). split; lia.
Qed.


(** C8.  Whatever [weeks] the endpoint is called with, the job it puts on
    the queue carries no argument, and the worker runs the aggregator with
    the task's default window of 52 weeks. *)
Theorem get_transaction_analysis_window today (weeks : option Z) :
  Main.get_transaction_analysis weeks = Main.Job [] ∧
  Main.run_job q today (Main.get_transaction_analysis weeks) =
    Tasks.get_transaction_analysis q today 52.
Proof. done. Qed.

End Aggregator.

(** ** The public transaction endpoint *)

Section Endpoint.
Context {A : Type} `{Amount A} `{!AmountSign A}.

Lemma validate_amount (raw : Main.raw_transaction A) transaction :
  Main.validate raw = Return transaction →
  RequestTransactionModel.amount transaction = Main.raw_amount raw ∧
  amount_ge1 (RequestTransactionModel.amount transaction) = true.
Proof.
  unfold Main.validate.
  destruct (currency_of_value _) as [currency|]; [|done].
  destruct (amount_ge1 (Main.raw_amount raw)) eqn:Hge; [|done].
  by intros [= <-].
Qed.

(** C10.  A request body whose amount is below 1 is refused with a
    validation error before the handler runs, and the store is as before.
    Whatever the request, the transaction table is as before or has gained
    one row, whose amount is that of the request, is at least 1 and is not
    negative. *)
Theorem route_post_transaction_amount
    now new_id user_id (raw : Main.raw_transaction A) (session : Session A) r s' :
  Main.route_post_transaction now new_id user_id raw session = (r, s') →
  (amount_ge1 (Main.raw_amount raw) = false →
     r = Raise RequestValidationError ∧ s' = session) ∧
  (transactions s' = transactions session ∨
   ∃ tr, transactions s' = transactions session ++ [tr] ∧
     Transaction.amount tr = Main.raw_amount raw ∧
     amount_ge1 (Transaction.amount tr) = true ∧
     amount_lt0 (Transaction.amount tr) = false).
Proof.
  unfold Main.route_post_transaction.
  destruct (Main.validate raw) as [transaction|e] eqn:Hv.
  - apply validate_amount in Hv as [Hraw Hge]. intros Hrun. split.
    + rewrite <- Hraw. congruence.
    + apply post_transaction_shape in Hrun
        as [[_ ->]|(i & user_balance & _ & _ & _ & ->)]; [by left|].
      right. eexists. split; [done|]. simpl.
      split; [done|]. split; [done|]. by apply amount_ge1_lt0.
  - intros [= <- <-]. split; [|by left].
    intros Hge. split; [|done]. revert Hv. unfold Main.validate.
    destruct (currency_of_value _); [|by intros [= <-]].
    rewrite Hge. by intros [= <-].
Qed.

End Endpoint.

(** ** Worked instances *)

(** Scenario A: a deposit of 100 USD on a balance of 50, then its
    rollback. *)
Example scenario_A :
  ∃ tr s1 tr' s2,
    Main.post_transaction 200 5 1 (RequestTransactionModel.Build USD 100)
      Sample.session0 = (Return (Main.RespTransaction tr), s1) ∧
    UserBalance.amount <$> balances s1 !! 0%nat = Some 150 ∧
    Transaction.status tr = processed ∧
    Main.patch_rollback_transaction 1 (Transaction.id tr) s1 = (Return tr', s2) ∧
    UserBalance.amount <$> balances s2 !! 0%nat = Some 50 ∧
    Transaction.status tr' = roll_backed.
Proof. do 4 eexists. repeat split. Qed.

(** Scenario D on the modelled queries: the window of three weeks yields two
    entries of 21 days each. *)
Example scenario_D_analysis :
  Tasks.get_transaction_analysis Sample.queries_D Sample.today 3 =
    Return Sample.analysis_D.
Proof. vm_compute. reflexivity. Qed.

(** Only with [weeks = 1] is a bucket one week long; the last week of this
    history is then empty and nothing is emitted. *)
Example scenario_D_one_week :
  Tasks.get_transaction_analysis Sample.queries_D Sample.today 1 =
    Return [].
Proof. vm_compute. reflexivity. Qed.

(** A request for three weeks is answered with the analysis over 52. *)
Example scenario_D_endpoint :
  Main.run_job Sample.queries_D Sample.today
    (Main.get_transaction_analysis (Some 3)) =
  Tasks.get_transaction_analysis Sample.queries_D Sample.today 52
  ∧ Tasks.get_transaction_analysis Sample.queries_D Sample.today 52
    ≠ Tasks.get_transaction_analysis Sample.queries_D Sample.today 3.
Proof. split; [done|]. vm_compute. discriminate. Qed.

Lemma get_transaction_analysis_span_witness :
  Tasks.end_date (Tasks.Entry (Sample.today - 21) Sample.today 0 0 0 100 0 1 1)
  - Tasks.start_date (Tasks.Entry (Sample.today - 21) Sample.today 0 0 0 100 0 1 1)
  = 7 * 3.
Proof.
  apply (get_transaction_analysis_span (A:=Z) Sample.queries_D
           Sample.today 3 Sample.analysis_D).
  - vm_compute. reflexivity.
  - apply list_elem_of_here.
Defined.

Lemma post_transaction_apply_witness :
  Main.post_transaction 200 5 1 (RequestTransactionModel.Build USD (-80))
    Sample.session0 = (Raise (HTTPException 400 "Negative balance"), Sample.session0)
  ∧ ∃ tr s',
      Main.post_transaction 200 5 1 (RequestTransactionModel.Build USD (-50))
        Sample.session0 = (Return (Main.RespTransaction tr), s') ∧
      UserBalance.amount <$> balances s' !! 0%nat = Some 0 ∧
      transactions s' = transactions Sample.session0 ++ [tr] ∧
      Transaction.status tr = processed ∧
      Transaction.amount tr = -50.
Proof.
  split.
  - apply (post_transaction_apply (A:=Z) 200 5 1
             (RequestTransactionModel.Build USD (-80)) Sample.session0 Sample.alice
             0%nat (UserBalance.Build 1 1 USD 50 100));
      reflexivity.
  - destruct (post_transaction_apply (A:=Z) 200 5 1
               (RequestTransactionModel.Build USD (-50)) Sample.session0 Sample.alice
               0%nat (UserBalance.Build 1 1 USD 50 100) eq_refl eq_refl eq_refl)
      as [_ Hok].
    destruct Hok as (tr & s' & Hrun & _ & _ & Hamount & Hrows & Hstatus & Hdelta & _);
      [right; reflexivity|].
    exists tr, s'. repeat split; assumption.
Defined.


Lemma apply_rollback_round_trip_witness :
  balances
    (Main.patch_rollback_transaction 1 2
       (Main.post_transaction 120 2 1 (RequestTransactionModel.Build USD 100%float)
          Sample.float_session).2).2
  = balances Sample.float_session.
Proof.
  destruct (apply_rollback_round_trip (A:=float) 120 2 1
              (RequestTransactionModel.Build USD 100%float) Sample.float_session
              (Transaction.Build 2 1 USD 100%float processed 120)
              (Main.post_transaction 120 2 1
                 (RequestTransactionModel.Build USD 100%float)
                 Sample.float_session).2
              1
              (Transaction.Build 2 1 USD 100%float roll_backed 120)
              (Main.patch_rollback_transaction 1 2
                 (Main.post_transaction 120 2 1
                    (RequestTransactionModel.Build USD 100%float)
                    Sample.float_session).2).2)
    as (i & user_balance & Hbal & _ & Hexact & _).
  - vm_compute. reflexivity.
  - vm_compute. reflexivity.
  - vm_compute in Hbal. injection Hbal as _ <-. apply Hexact.
    vm_compute. reflexivity.
Defined.

(** C4, at the amounts 1.0 and 1.2: the deposit of 1.2 and its rollback both
    succeed, and the balance they leave is not the 1.0 they found. *)
Lemma apply_rollback_not_exact :
  ∃ tr s1 tr' s2,
    Main.route_post_transaction 120 2 1 (Main.RawTransaction "USD" 1.2%float)
      Sample.float_session = (Return (Main.RespTransaction tr), s1) ∧
    Main.patch_rollback_transaction 1 (Transaction.id tr) s1 = (Return tr', s2) ∧
    balances s2 ≠ balances Sample.float_session.
Proof.
  do 4 eexists. split; [vm_compute; reflexivity|]. split; [vm_compute; reflexivity|].
  intros Heq.
  apply (f_equal (λ bs : list (UserBalance.t float),
                    match bs with
                    | b :: _ => PrimFloat.eqb (UserBalance.amount b) 1%float
                    | [] => true
                    end)) in Heq.
  vm_compute in Heq. discriminate.
Qed.

Lemma post_transaction_missing_user_witness :
  Main.post_transaction 200 5 7 (RequestTransactionModel.Build USD 10) Sample.session0
  = (Return (Main.RespException
               (HTTPException 404 "User with id 7 does not exist")),
     Sample.session0).
Proof.
  apply (post_transaction_missing_user (A:=Z) 200 5 7
           (RequestTransactionModel.Build USD 10) Sample.session0).
  reflexivity.
Defined.

Lemma patch_rollback_transaction_negative_witness :
  Main.patch_rollback_transaction 1 4 Sample.session0
  = (Raise (HTTPException 400 "Balance can not be negative"), Sample.session0).
Proof.
  eapply (patch_rollback_transaction_negative (A:=Z) 1 4 Sample.session0
            3%nat (Transaction.Build 4 1 EUR 70 processed 113)
            1%nat (UserBalance.Build 2 1 EUR 0 100)).
  - reflexivity.
  - reflexivity.
  - reflexivity.
  - reflexivity.
  - reflexivity.
  - discriminate.
  - reflexivity.
Defined.

Lemma patch_rollback_transaction_rolled_back_witness :
  Main.patch_rollback_transaction 1 2 Sample.session0
  = (Raise (TransactionAlreadyRollbackedException 400
              "Transaction with id=`2` is already rollbacked"), Sample.session0).
Proof.
  eapply (patch_rollback_transaction_rolled_back (A:=Z) 1 2 Sample.session0
            1%nat (Transaction.Build 2 1 EUR 30 roll_backed 111)).
  - reflexivity.
  - reflexivity.
  - reflexivity.
  - discriminate.
  - reflexivity.
Defined.


Lemma route_post_transaction_amount_witness :
  Main.route_post_transaction 200 5 1 (Main.RawTransaction "USD" 0) Sample.session0
  = (Raise RequestValidationError, Sample.session0).
Proof.
  destruct (Main.route_post_transaction 200 5 1 (Main.RawTransaction "USD" 0)
              Sample.session0) as [r s'] eqn:Hrun.
  destruct (proj1 (route_post_transaction_amount (A:=Z) 200 5 1
                     (Main.RawTransaction "USD" 0) Sample.session0 r s' Hrun)
              eq_refl) as [-> ->].
  reflexivity.
Defined.

(** ** The user handlers *)

Section Users.
Context {A : Type} `{Amount A}.

Implicit Types (session : Session A) (user : User.t).
Implicit Types (user_balance : UserBalance.t A) (tr : Transaction.t A).
Implicit Types (transaction : RequestTransactionModel.t A).

Lemma post_user_shape now new_id balance_id email session r s' :
  MainUsers.post_user now new_id balance_id email session = (r, s') →
  (∃ e, r = URaise e) ∧ s' = session ∨
  scalar_one_or_none (λ u, bool_decide (User.email u = email)) (users session)
    = Return None ∧
  s' = MkSession (users session ++ [User.Build new_id email ACTIVE now])
         (balances session ++ opening_balances now new_id balance_id)
         (transactions session).
Proof.
  unfold MainUsers.post_user.
  destruct (scalar_one_or_none _ (users session)) as [[[i u]|]|];
    try (intros [= <- <-]; left; by eauto).
  simpl. destruct (scalar_one_or_none _ _) as [[[i u]|]|];
    intros [= <- <-]; right; done.
Qed.

Lemma patch_user_shape user_id status session r s' :
  MainUsers.patch_user user_id status session = (r, s') →
  (∃ e, r = URaise e) ∧ s' = session ∨
  ∃ i db_user,
    scalar_one_or_none (λ u, bool_decide (User.id u = user_id)) (users session)
      = Return (Some (i, db_user)) ∧
    User.status db_user ≠ status ∧
    r = UReturn (set_user_status status db_user) ∧
    s' = MkSession (<[i := set_user_status status db_user]> (users session))
           (balances session) (transactions session).
Proof.
  unfold MainUsers.patch_user.
  destruct (scalar_one_or_none _ (users session)) as [[[i u]|]|] eqn:Hu;
    try (intros [= <- <-]; left; by eauto).
  destruct (decide _) as [|Hne]; [intros [= <- <-]; left; by eauto|].
  intros [= <- <-]. right. by exists i, u.
Qed.

(** Replacing a row by one with the same key keeps the keys of a table. *)
Lemma fmap_insert_same {R K : Type} (key : R → K) (rows : list R) i r r' :
  rows !! i = Some r → key r' = key r →
  key <$> <[i := r']> rows = key <$> rows.
Proof.
  intros Hl Hk. rewrite list_fmap_insert, Hk. apply list_insert_id.
  by rewrite list_lookup_fmap, Hl.
Qed.

(** What one request leaves of the three tables. *)
Lemma perform_append_only session (a : MainUsers.action A) :
  user_key <$> users session `prefix_of`
    user_key <$> users (MainUsers.perform session a) ∧
  balance_key <$> balances session `prefix_of`
    balance_key <$> balances (MainUsers.perform session a) ∧
  transaction_key <$> transactions session `prefix_of`
    transaction_key <$> transactions (MainUsers.perform session a).
Proof.
  destruct a as [now new_id balance_id email|user_id status
                |now new_id user_id transaction|user_id transaction_id]; simpl.
  - destruct (MainUsers.post_user _ _ _ _ _) as [r s'] eqn:Hrun.
    apply post_user_shape in Hrun as [[_ ->]|[_ ->]]; [done|]. simpl.
    rewrite !fmap_app. repeat split; [by apply prefix_app_r..|done].
  - destruct (MainUsers.patch_user _ _ _) as [r s'] eqn:Hrun.
    apply patch_user_shape in Hrun as [[_ ->]|(i & u & Hu & _ & _ & ->)]; [done|].
    simpl. apply scalar_one_or_none_lookup in Hu as [Hu _].
    by rewrite (fmap_insert_same user_key _ i u).
  - destruct (Main.post_transaction _ _ _ _ _) as [r s'] eqn:Hrun.
    apply post_transaction_shape in Hrun
      as [[_ ->]|(i & user_balance & Hb & _ & _ & ->)]; [done|].
    simpl. apply scalar_one_or_none_lookup in Hb as [Hb _].
    rewrite (fmap_insert_same balance_key _ i user_balance) by done.
    rewrite fmap_app. repeat split; [done..|by apply prefix_app_r].
  - destruct (Main.patch_rollback_transaction _ _ _) as [r s'] eqn:Hrun.
    apply patch_rollback_transaction_shape in Hrun
      as [[_ ->]|(i & tr & j & user_balance & Ht & _ & _ & Hb & _ & _ & ->)];
      [done|].
    simpl. apply scalar_one_or_none_lookup in Ht as [Ht _].
    apply scalar_one_or_none_lookup in Hb as [Hb _].
    rewrite (fmap_insert_same balance_key _ j user_balance) by done.
    by rewrite (fmap_insert_same transaction_key _ i tr).
Qed.

(** X1.  No sequence of requests deletes or reorders a row of any table, or
    changes a column other than a user's status, a balance's amount and a
    transaction's status: the key columns of each table before the
    requests are a prefix of those after. *)
Theorem run_append_only (acts : list (MainUsers.action A)) session :
  user_key <$> users session `prefix_of`
    user_key <$> users (MainUsers.run acts session) ∧
  balance_key <$> balances session `prefix_of`
    balance_key <$> balances (MainUsers.run acts session) ∧
  transaction_key <$> transactions session `prefix_of`
    transaction_key <$> transactions (MainUsers.run acts session).
Proof.
  unfold MainUsers.run. revert session.
  induction acts as [|a acts IH]; intros session; simpl; [done|].
  destruct (perform_append_only session a) as (Hu & Hb & Ht).
  destruct (IH (MainUsers.perform session a)) as (Hu' & Hb' & Ht').
  repeat split; by etrans.
Qed.

Lemma opening_balances_non_negative `{!AmountSign A} now new_id balance_id :
  Forall non_negative (opening_balances now new_id balance_id).
Proof.
  unfold opening_balances. apply Forall_fmap, Forall_forall. intros c _.
  apply amount_zero_lt0.
Qed.

(** X2.  Starting from a balance table with no amount below zero, no
    sequence of requests to the four writing handlers leaves an amount
    below zero. *)
Theorem run_non_negative `{!AmountSign A} (acts : list (MainUsers.action A)) session :
  Forall non_negative (balances session) →
  Forall non_negative (balances (MainUsers.run acts session)).
Proof.
  unfold MainUsers.run. revert session.
  induction acts as [|a acts IH]; intros session Hinv; simpl; [done|].
  apply IH.
  destruct a as [now new_id balance_id email|user_id status
                |now new_id user_id transaction|user_id transaction_id]; simpl.
  - destruct (MainUsers.post_user _ _ _ _ _) as [r s'] eqn:Hrun.
    apply post_user_shape in Hrun as [[_ ->]|[_ ->]]; [done|]. simpl.
    apply Forall_app_2; [done|apply opening_balances_non_negative].
  - destruct (MainUsers.patch_user _ _ _) as [r s'] eqn:Hrun.
    by apply patch_user_shape in Hrun as [[_ ->]|(i & u & _ & _ & _ & ->)].
  - by apply (handle_non_negative session (Main.Apply now new_id user_id transaction)).
  - by apply (handle_non_negative session (Main.Rollback user_id transaction_id)).
Qed.

(** [session.get] and the query by id find the same row. *)
Lemma session_get_user_select (us : list User.t) (user_id : Z) (k : nat) :
  session_get_user us user_id =
  snd <$> head (select_where (λ u, bool_decide (User.id u = user_id)) k us).
Proof.
  unfold session_get_user. revert k.
  induction us as [|u us IH]; intros k; simpl; [done|].
  rewrite filter_cons. destruct (decide (User.id u = user_id)) as [Heq|Hne].
  - by rewrite bool_decide_eq_true_2.
  - rewrite bool_decide_eq_false_2 by done. apply IH.
Qed.

Lemma scalar_one_or_none_session_get (us : list User.t) (user_id : Z) i u :
  scalar_one_or_none (λ u, bool_decide (User.id u = user_id)) us
    = Return (Some (i, u)) →
  session_get_user us user_id = Some u.
Proof.
  intros Hs%scalar_one_or_none_Some.
  by rewrite (session_get_user_select us user_id 0), Hs.
Qed.

(** X3.  A [Rollback] by the owner, not BLOCKED, of a PROCESSED transaction
    whose amount the balance row covers returns the transaction as
    ROLLBACKED, takes the amount off that one balance row, rewrites that
    one transaction row, and leaves every other row of the store alone. *)
Theorem patch_rollback_transaction_success
    user_id transaction_id session user i tr j user_balance :
  session_get_user (users session) user_id = Some user →
  User.status user ≠ BLOCKED →
  scalar_one_or_none (λ tr, bool_decide (Transaction.id tr = transaction_id))
    (transactions session) = Return (Some (i, tr)) →
  Transaction.user_id tr = user_id →
  Transaction.status tr = processed →
  scalar_one_or_none (Main.balance_of user_id (Transaction.currency tr))
    (balances session) = Return (Some (j, user_balance)) →
  let new_balance :=
    amount_sub (UserBalance.amount user_balance) (Transaction.amount tr) in
  amount_lt0 new_balance = false →
  ∃ s',
    Main.patch_rollback_transaction user_id transaction_id session =
      (Return (Transaction.set_status roll_backed tr), s') ∧
    users s' = users session ∧
    balances s' !! j = Some (UserBalance.set_amount new_balance user_balance) ∧
    (∀ k, k ≠ j → balances s' !! k = balances session !! k) ∧
    transactions s' !! i = Some (Transaction.set_status roll_backed tr) ∧
    (∀ k, k ≠ i → transactions s' !! k = transactions session !! k) ∧
    length (balances s') = length (balances session) ∧
    length (transactions s') = length (transactions session).
Proof.
  intros Huser Hnb Htr Hown Hst Hbal new_balance Hneg.
  unfold Main.patch_rollback_transaction. rewrite Huser, Htr, Hbal.
  fold new_balance. rewrite Hneg.
  destruct (decide (User.status user = BLOCKED)); [done|].
  destruct (decide (Transaction.user_id tr ≠ user_id)); [done|].
  destruct (decide (Transaction.status tr = roll_backed)); [congruence|].
  apply scalar_one_or_none_lookup in Htr as [Htr _].
  apply scalar_one_or_none_lookup in Hbal as [Hbal _].
  eexists. split; [reflexivity|]. simpl. repeat split.
  - apply list_lookup_insert_eq. by eapply lookup_lt_Some.
  - intros k Hk. by apply list_lookup_insert_ne.
  - apply list_lookup_insert_eq. by eapply lookup_lt_Some.
  - intros k Hk. by apply list_lookup_insert_ne.
  - apply length_insert.
  - apply length_insert.
Qed.

(** X4.  Nobody rolls back a transaction of another user: a [Rollback]
    whose [user_id] is not the transaction's always raises and writes
    nothing, and for an existing user who is not BLOCKED the error is
    [TransactionDoesNotBelongToUserException], whatever the status of the
    transaction. *)
Theorem patch_rollback_transaction_not_owner
    user_id transaction_id session i tr :
  scalar_one_or_none (λ tr, bool_decide (Transaction.id tr = transaction_id))
    (transactions session) = Return (Some (i, tr)) →
  Transaction.user_id tr ≠ user_id →
  (∃ e, Main.patch_rollback_transaction user_id transaction_id session =
          (Raise e, session)) ∧
  (∀ user,
     session_get_user (users session) user_id = Some user →
     User.status user ≠ BLOCKED →
     Main.patch_rollback_transaction user_id transaction_id session =
       (Raise (TransactionDoesNotBelongToUserException 400
          ("Transaction with id=`" +:+ pretty (Transaction.id tr) +:+
           "` does not belong to user with id=`" +:+ pretty (User.id user) +:+
           "`")), session)).
Proof.
  intros Htr Hown. split.
  - unfold Main.patch_rollback_transaction. rewrite Htr.
    destruct (session_get_user _ _) as [user|]; [|by eauto].
    destruct (decide _); [by eauto|].
    destruct (decide _); [by eauto|done].
  - intros user Huser Hnb.
    unfold Main.patch_rollback_transaction. rewrite Huser, Htr.
    destruct (decide (User.status user = BLOCKED)); [done|].
    destruct (decide (Transaction.user_id tr ≠ user_id)); [done|done].
Qed.

(** X5.  Once [patch_user] has set a user to BLOCKED, every [Apply] and every
    [Rollback] in that user's name raises the 400 "blocked" error and
    leaves the store as it is. *)
Theorem patch_user_blocks user_id session u' s' :
  MainUsers.patch_user user_id BLOCKED session = (UReturn u', s') →
  (∀ now new_id transaction,
     Main.post_transaction now new_id user_id transaction s' =
       (Raise (HTTPException 400
          ("User with id " +:+ pretty user_id +:+ " is blocked")), s')) ∧
  (∀ transaction_id,
     Main.patch_rollback_transaction user_id transaction_id s' =
       (Raise (HTTPException 400
          ("User with id " +:+ pretty user_id +:+ " is BLOCKED")), s')).
Proof.
  intros Hrun. apply patch_user_shape in Hrun
    as [[[e ?] _]|(i & u & Hu & _ & _ & ->)]; [done|].
  assert (session_get_user (<[i := set_user_status BLOCKED u]> (users session)) user_id
          = Some (set_user_status BLOCKED u)) as Hget.
  { eapply scalar_one_or_none_session_get, scalar_one_or_none_insert; [done|].
    by apply scalar_one_or_none_lookup in Hu as [_ ?]. }
  split.
  - intros now new_id transaction. by apply post_transaction_blocked with
      (user := set_user_status BLOCKED u).
  - intros transaction_id. unfold Main.patch_rollback_transaction. simpl.
    rewrite Hget. simpl. by destruct (decide (BLOCKED = BLOCKED)).
Qed.

Lemma set_user_status_id u :
  set_user_status (User.status u) u = u.
Proof. by destruct u. Qed.

(** X6.  [patch_user] to the other status and back restores the store as it
    was, and the second call returns the user row as it was. *)
Theorem patch_user_round_trip user_id status session u1 s1 status' :
  MainUsers.patch_user user_id status session = (UReturn u1, s1) →
  status' ≠ status →
  ∃ u, MainUsers.patch_user user_id status' s1 = (UReturn u, session) ∧
       session_get_user (users session) user_id = Some u ∧
       u1 = set_user_status status u.
Proof.
  intros Hrun Hne. apply patch_user_shape in Hrun
    as [[[e ?] _]|(i & u & Hu & Hst & [= ->] & ->)]; [done|].
  exists u. split; [|split; [by eapply scalar_one_or_none_session_get|done]].
  unfold MainUsers.patch_user. simpl.
  rewrite (scalar_one_or_none_insert _ _ i u (set_user_status status u) Hu)
    by (by apply scalar_one_or_none_lookup in Hu as [_ ?]).
  simpl. destruct (decide (status = status')) as [|_]; [congruence|].
  assert (status' = User.status u) as ->
    by (destruct status', status, (User.status u); congruence).
  apply scalar_one_or_none_lookup in Hu as [Hl _].
  change (set_user_status (User.status u) (set_user_status status u))
    with (set_user_status (User.status u) u).
  rewrite set_user_status_id, list_insert_insert_eq, list_insert_id by done.
  by destruct session.
Qed.

(** X7.  [patch_user] is refused when the user already has the status, so a
    successful call cannot be repeated: the same call again raises
    [UserAlreadyHasThisStatus] and changes nothing. *)
Theorem patch_user_twice user_id status session u1 s1 :
  MainUsers.patch_user user_id status session = (UReturn u1, s1) →
  MainUsers.patch_user user_id status s1 =
    (URaise (UserAlreadyHasThisStatus 400
       ("User is already " +:+ user_status_value status)), s1).
Proof.
  intros Hrun. apply patch_user_shape in Hrun
    as [[[e ?] _]|(i & u & Hu & Hst & _ & ->)]; [done|].
  unfold MainUsers.patch_user. simpl.
  rewrite (scalar_one_or_none_insert _ _ i u (set_user_status status u) Hu)
    by (by apply scalar_one_or_none_lookup in Hu as [_ ?]).
  simpl. by destruct (decide (status = status)).
Qed.

Lemma select_where_none {R : Type} (p : R → bool) (k : nat) (rows : list R) :
  Forall (λ r, p r = false) rows → select_where p k rows = [].
Proof.
  revert k. induction rows as [|r rows IH]; intros k Hall; simpl; [done|].
  apply Forall_cons in Hall as [-> Hall]. by apply IH.
Qed.

Lemma select_where_nil_Forall {R : Type} (p : R → bool) (k : nat) (rows : list R) :
  select_where p k rows = [] → Forall (λ r, p r = false) rows.
Proof.
  revert k. induction rows as [|r rows IH]; intros k; simpl; [done|].
  destruct (p r) eqn:Hp; [done|]. intros Hnil. constructor; [done|by eapply IH].
Qed.

Lemma select_where_fmap {R S : Type} (p : S → bool) (f : R → S) (k : nat)
    (rows : list R) :
  select_where p k (f <$> rows) = prod_map id f <$> select_where (p ∘ f) k rows.
Proof.
  revert k. induction rows as [|r rows IH]; intros k; simpl; [done|].
  rewrite IH. by destruct (p (f r)).
Qed.

Lemma select_where_ext {R : Type} (p p' : R → bool) (k : nat) (rows : list R) :
  (∀ r, p r = p' r) → select_where p k rows = select_where p' k rows.
Proof.
  intros Hext. revert k. induction rows as [|r rows IH]; intros k; simpl; [done|].
  by rewrite Hext, IH.
Qed.

(** Each currency is listed once. *)
Lemma select_where_all_currencies (currency : CurrencyEnum) (k : nat) :
  ∃ j, select_where (λ c, bool_decide (c = currency)) k all_currencies
       = [(j, currency)].
Proof. destruct currency; eexists; reflexivity. Qed.

(** Among the rows inserted for a new user there is one per currency. *)
Lemma select_where_opening_balances now new_id balance_id currency (k : nat) :
  ∃ j, select_where (Main.balance_of new_id currency) k
         (opening_balances now new_id balance_id)
       = [(j, UserBalance.Build (balance_id currency) new_id currency
                amount_zero now)].
Proof.
  destruct (select_where_all_currencies currency k) as [j Hj]. exists j.
  unfold opening_balances. rewrite select_where_fmap.
  rewrite (select_where_ext _ (λ c, bool_decide (c = currency))), Hj; [done|].
  intros c. unfold Main.balance_of. simpl. by rewrite bool_decide_eq_true_2.
Qed.

Lemma post_user_unfold now new_id balance_id email session :
  MainUsers.post_user now new_id balance_id email session =
  match scalar_one_or_none (λ u, bool_decide (User.email u = email))
          (users session) with
  | Raise e => (URaise (QueryException e), session)
  | Return (Some _) =>
      (URaise (UserAlreadyExistsException 409
         ("User with email=`" +:+ email +:+ "` already exists")), session)
  | Return None =>
      let s' := MkSession (users session ++ [User.Build new_id email ACTIVE now])
                  (balances session ++ opening_balances now new_id balance_id)
                  (transactions session) in
      match scalar_one_or_none (λ u, bool_decide (User.id u = new_id)) (users s') with
      | Raise e => (URaise (QueryException e), s')
      | Return None => (UReturn None, s')
      | Return (Some (_, u)) => (UReturn (Some (u, MainUsers.user_balance s' u)), s')
      end
  end.
Proof. reflexivity. Qed.

Lemma filter_opening_balances now new_id balance_id :
  filter (λ b : UserBalance.t A, UserBalance.user_id b = new_id)
    (opening_balances now new_id balance_id)
  = opening_balances now new_id balance_id.
Proof.
  unfold opening_balances. induction all_currencies as [|c cs IH]; [done|].
  rewrite fmap_cons, filter_cons. simpl. rewrite decide_True by done.
  by rewrite IH.
Qed.

(** The new user and each of its balance rows are found in the store
    [post_user] leaves. *)
Lemma post_user_lookups now new_id balance_id email session :
  Forall (λ u, User.id u ≠ new_id) (users session) →
  Forall (λ b : UserBalance.t A, UserBalance.user_id b ≠ new_id) (balances session) →
  session_get_user (users session ++ [User.Build new_id email ACTIVE now]) new_id
    = Some (User.Build new_id email ACTIVE now) ∧
  ∀ currency, ∃ j,
    scalar_one_or_none (Main.balance_of new_id currency)
      (balances session ++ opening_balances now new_id balance_id) =
      Return (Some (j, UserBalance.Build (balance_id currency) new_id currency
                         amount_zero now)).
Proof.
  intros Hfresh Hbal. split.
  - rewrite (session_get_user_select _ _ 0), select_where_app.
    rewrite select_where_none.
    + simpl. by rewrite bool_decide_eq_true_2.
    + eapply Forall_impl; [exact Hfresh|]. intros u Hu.
      by apply bool_decide_eq_false_2.
  - intros currency.
    destruct (select_where_opening_balances now new_id balance_id currency
                (0 + length (balances session))) as [j Hj].
    exists j. unfold scalar_one_or_none.
    rewrite select_where_app, Hj, select_where_none; [done|].
    eapply Forall_impl; [exact Hbal|]. intros b Hb. unfold Main.balance_of.
    by rewrite bool_decide_eq_false_2.
Qed.

(** X8.  [post_user] with an email no user has, and ids the store has not
    used, returns the new ACTIVE user with ten balance rows of amount zero,
    one per currency in the order of [CurrencyEnum]; it appends these rows
    and nothing else, and for every currency the balance query of the new
    user then finds exactly one row. *)
Theorem post_user_registers now new_id balance_id email session :
  scalar_one_or_none (λ u, bool_decide (User.email u = email)) (users session)
    = Return None →
  Forall (λ u, User.id u ≠ new_id) (users session) →
  Forall (λ b : UserBalance.t A, UserBalance.user_id b ≠ new_id) (balances session) →
  let db_user := User.Build new_id email ACTIVE now in
  let user_balances := opening_balances now new_id balance_id in
  let s' := MkSession (users session ++ [db_user])
              (balances session ++ user_balances) (transactions session) in
  MainUsers.post_user now new_id balance_id email session =
    (UReturn (Some (db_user, user_balances)), s') ∧
  UserBalance.currency <$> user_balances = all_currencies ∧
  Forall (λ b, UserBalance.amount b = amount_zero ∧ UserBalance.user_id b = new_id)
    user_balances ∧
  session_get_user (users s') new_id = Some db_user ∧
  ∀ currency, ∃ j,
    scalar_one_or_none (Main.balance_of new_id currency) (balances s') =
      Return (Some (j, UserBalance.Build (balance_id currency) new_id currency
                         amount_zero now)).
Proof.
  intros Hemail Hfresh Hbal db_user user_balances s'.
  assert (select_where (λ u, bool_decide (User.id u = new_id)) 0 (users session) = [])
    as Hsel.
  { apply select_where_none. eapply Forall_impl; [exact Hfresh|].
    intros u Hu. by apply bool_decide_eq_false_2. }
  assert (filter (λ b : UserBalance.t A, UserBalance.user_id b = new_id)
            (balances session) = []) as Hold.
  { induction (balances session) as [|b bs IH]; [done|].
    apply Forall_cons in Hbal as [Hb Hbs]. rewrite filter_cons.
    destruct (decide _); [done|by apply IH]. }
  destruct (post_user_lookups now new_id balance_id email session Hfresh Hbal)
    as [Hget Hquery].
  split; [|split; [|split; [|split]]]; [|reflexivity| |exact Hget|exact Hquery].
  - rewrite post_user_unfold, Hemail. cbv zeta. cbn [users].
    rewrite (scalar_one_or_none_fresh _ _ db_user)
      by (done || by apply bool_decide_eq_true_2).
    do 4 f_equal. unfold MainUsers.user_balance. subst db_user.
    cbn [balances User.id].
    by rewrite filter_app, Hold, filter_opening_balances.
  - unfold user_balances, opening_balances. apply Forall_fmap, Forall_forall.
    by intros c _.
Qed.

(** X9.  A user just registered can be credited in any currency: when the
    amount added to zero is not negative, [post_transaction] in the new
    user's name returns a PROCESSED transaction of that amount. *)
Theorem post_user_then_post_transaction
    now new_id balance_id email session r s1 now' tr_id transaction :
  MainUsers.post_user now new_id balance_id email session = (UReturn r, s1) →
  Forall (λ u, User.id u ≠ new_id) (users session) →
  Forall (λ b : UserBalance.t A, UserBalance.user_id b ≠ new_id) (balances session) →
  amount_lt0 (amount_add amount_zero (RequestTransactionModel.amount transaction))
    = false →
  ∃ s2,
    Main.post_transaction now' tr_id new_id transaction s1 =
      (Return (Main.RespTransaction
                 (Transaction.Build tr_id new_id
                    (RequestTransactionModel.currency transaction)
                    (RequestTransactionModel.amount transaction) processed now')),
       s2) ∧
    transactions s2 = transactions session ++
      [Transaction.Build tr_id new_id
         (RequestTransactionModel.currency transaction)
         (RequestTransactionModel.amount transaction) processed now'].
Proof.
  intros Hrun Hfresh Hbal Hneg.
  pose proof Hrun as Hshape. apply post_user_shape in Hshape
    as [[[e ?] _]|[Hemail ->]]; [done|].
  destruct (post_user_lookups now new_id balance_id email session Hfresh Hbal)
    as [Hget Hquery].
  destruct (Hquery (RequestTransactionModel.currency transaction)) as [j Hj].
  unfold Main.post_transaction. cbn [users balances]. rewrite Hget, Hj.
  cbn [User.status UserBalance.amount].
  destruct (decide (ACTIVE ≠ ACTIVE)) as [|_]; [done|].
  rewrite Hneg. by eexists.
Qed.

(** X10.  An email is registered once: after a [post_user] that returned, a
    [post_user] with the same email raises [UserAlreadyExistsException]
    and changes nothing. *)
Theorem post_user_twice
    now new_id balance_id email session r s1 now' new_id' balance_id' :
  MainUsers.post_user now new_id balance_id email session = (UReturn r, s1) →
  MainUsers.post_user now' new_id' balance_id' email s1 =
    (URaise (UserAlreadyExistsException 409
       ("User with email=`" +:+ email +:+ "` already exists")), s1).
Proof.
  intros Hrun. apply post_user_shape in Hrun as [[[e ?] _]|[Hemail ->]]; [done|].
  unfold MainUsers.post_user. simpl.
  rewrite (scalar_one_or_none_fresh _ _ (User.Build new_id email ACTIVE now)).
  - done.
  - by apply bool_decide_eq_true_2.
  - unfold scalar_one_or_none in Hemail.
    by destruct (select_where _ 0 (users session)) as [|? [|? ?]].
Qed.

End Users.

(** ** One balance row per user and currency *)

Section Keys.
Context {A : Type} `{Amount A}.

Implicit Types (session : Session A).

Lemma select_where_insert_length {R : Type} (p : R → bool) (rows : list R)
    (k i : nat) (r r' : R) :
  rows !! i = Some r → p r' = p r →
  length (select_where p k (<[i := r']> rows)) = length (select_where p k rows).
Proof.
  revert k i. induction rows as [|r0 rows IH]; intros k i; [done|].
  destruct i as [|i]; simpl.
  - intros [= ->] ->. by destruct (p r).
  - intros Hl Hr. destruct (p r0); simpl; by rewrite (IH (S k) i Hl Hr).
Qed.

(** One request keeps the balance keys apart, when a registration comes
    with a user id that no balance row carries. *)
Lemma perform_balance_keys_unique session (a : MainUsers.action A) :
  balance_keys_unique session →
  Forall (λ b, UserBalance.user_id b ∉ registered_ids [a]) (balances session) →
  balance_keys_unique (MainUsers.perform session a).
Proof.
  intros Huniq Hfresh user_id currency.
  destruct a as [now new_id balance_id email|uid status
                |now new_id uid transaction|uid transaction_id]; simpl.
  - destruct (MainUsers.post_user _ _ _ _ _) as [r s'] eqn:Hrun.
    apply post_user_shape in Hrun as [[_ ->]|[_ ->]]; [apply Huniq|]. simpl.
    rewrite select_where_app, length_app. simpl in Hfresh.
    destruct (decide (user_id = new_id)) as [->|Hne].
    + rewrite (select_where_none _ 0 (balances session)).
      * destruct (select_where_opening_balances now new_id balance_id currency
                    (0 + length (balances session))) as [j ->]. done.
      * eapply Forall_impl; [exact Hfresh|]. intros b Hb. unfold Main.balance_of.
        rewrite bool_decide_eq_false_2; [done|]. intros Heq. apply Hb.
        rewrite Heq. apply list_elem_of_here.
    + rewrite (select_where_none _ _ (opening_balances now new_id balance_id)).
      * simpl. rewrite Nat.add_0_r. apply Huniq.
      * unfold opening_balances. apply Forall_fmap, Forall_forall. intros c _.
        unfold Main.balance_of. simpl. by rewrite bool_decide_eq_false_2.
  - destruct (MainUsers.patch_user _ _ _) as [r s'] eqn:Hrun.
    apply patch_user_shape in Hrun as [[_ ->]|(i & u & _ & _ & _ & ->)];
      apply Huniq.
  - destruct (Main.post_transaction _ _ _ _ _) as [r s'] eqn:Hrun.
    apply post_transaction_shape in Hrun
      as [[_ ->]|(i & ub & Hb & _ & _ & ->)]; [apply Huniq|].
    simpl. apply scalar_one_or_none_lookup in Hb as [Hb _].
    rewrite (select_where_insert_length _ _ 0 i ub) by done. apply Huniq.
  - destruct (Main.patch_rollback_transaction _ _ _) as [r s'] eqn:Hrun.
    apply patch_rollback_transaction_shape in Hrun
      as [[_ ->]|(i & tr & j & ub & _ & _ & _ & Hb & _ & _ & ->)]; [apply Huniq|].
    simpl. apply scalar_one_or_none_lookup in Hb as [Hb _].
    rewrite (select_where_insert_length _ _ 0 j ub) by done. apply Huniq.
Qed.

Lemma perform_balance_user_ids session (a : MainUsers.action A) (ids : list Z) :
  NoDup (registered_ids [a] ++ ids) →
  Forall (λ b, UserBalance.user_id b ∉ registered_ids [a] ++ ids) (balances session) →
  Forall (λ b, UserBalance.user_id b ∉ ids)
    (balances (MainUsers.perform session a)).
Proof.
  intros Hnd Hfresh.
  assert (Forall (λ b, UserBalance.user_id b ∉ ids) (balances session)) as Hold.
  { eapply Forall_impl; [exact Hfresh|]. intros b Hb Hin. apply Hb.
    apply elem_of_app. by right. }
  destruct a as [now new_id balance_id email|uid status
                |now new_id uid transaction|uid transaction_id]; simpl.
  - destruct (MainUsers.post_user _ _ _ _ _) as [r s'] eqn:Hrun.
    apply post_user_shape in Hrun as [[_ ->]|[_ ->]]; [done|]. simpl.
    apply Forall_app_2; [done|]. unfold opening_balances.
    apply Forall_fmap, Forall_forall. intros c _. simpl.
    simpl in Hnd. by apply NoDup_cons in Hnd as [? _].
  - destruct (MainUsers.patch_user _ _ _) as [r s'] eqn:Hrun.
    by apply patch_user_shape in Hrun as [[_ ->]|(i & u & _ & _ & _ & ->)].
  - destruct (Main.post_transaction _ _ _ _ _) as [r s'] eqn:Hrun.
    apply post_transaction_shape in Hrun
      as [[_ ->]|(i & ub & Hb & _ & _ & ->)]; [done|].
    simpl. apply scalar_one_or_none_lookup in Hb as [Hb _].
    apply Forall_insert; [done|]. simpl.
    by apply (Forall_lookup_1 _ _ _ _ Hold Hb).
  - destruct (Main.patch_rollback_transaction _ _ _) as [r s'] eqn:Hrun.
    apply patch_rollback_transaction_shape in Hrun
      as [[_ ->]|(i & tr & j & ub & _ & _ & _ & Hb & _ & _ & ->)]; [done|].
    simpl. apply scalar_one_or_none_lookup in Hb as [Hb _].
    apply Forall_insert; [done|]. simpl.
    by apply (Forall_lookup_1 _ _ _ _ Hold Hb).
Qed.

(** X12.  While the store hands out user ids it has not used, there is never
    more than one balance row for a user and a currency: if that holds of a
    store, it holds after any sequence of requests whose registrations
    carry distinct user ids that no balance row of the store carries; so a
    balance query of [post_transaction] then never finds several rows. *)
Theorem run_balance_keys_unique (acts : list (MainUsers.action A)) session :
  balance_keys_unique session →
  NoDup (registered_ids acts) →
  Forall (λ b, UserBalance.user_id b ∉ registered_ids acts) (balances session) →
  balance_keys_unique (MainUsers.run acts session) ∧
  ∀ now new_id user_id transaction,
    (Main.post_transaction now new_id user_id transaction
       (MainUsers.run acts session)).1 ≠ Raise MultipleResultsFound.
Proof.
  intros Huniq Hnd Hfresh.
  assert (balance_keys_unique (MainUsers.run acts session)) as Hfinal.
  { unfold MainUsers.run. revert session Huniq Hnd Hfresh.
    induction acts as [|a acts IH]; intros session Huniq Hnd Hfresh; simpl; [done|].
    assert (registered_ids (a :: acts) = registered_ids [a] ++ registered_ids acts)
      as Hcons by (by destruct a).
    rewrite Hcons in Hnd. rewrite Hcons in Hfresh. apply IH.
    - apply perform_balance_keys_unique; [done|].
      eapply Forall_impl; [exact Hfresh|]. intros b Hb Hin. apply Hb.
      apply elem_of_app. by left.
    - by apply NoDup_app in Hnd as (_ & _ & ?).
    - by apply perform_balance_user_ids. }
  split; [done|]. intros now new_id user_id transaction.
  unfold Main.post_transaction.
  destruct (session_get_user _ _) as [user|]; [|done].
  destruct (decide _); [done|].
  specialize (Hfinal user_id (RequestTransactionModel.currency transaction)).
  unfold scalar_one_or_none.
  destruct (select_where _ 0 _) as [|[i ub] [|? ?]]; simpl in *; [done| |lia].
  by destruct (amount_lt0 _).
Qed.

End Keys.

(** ** Requests through the validated route *)

Section Route.
Context {A : Type} `{Amount A} `{!AmountSign A} `{!AmountOrder A}.

Implicit Types (session : Session A).

Lemma currency_of_value_value (currency : CurrencyEnum) :
  currency_of_value (currency_value currency) = Some currency.
Proof. by destruct currency. Qed.

Lemma currency_of_value_inv (currency : CurrencyEnum) (s : string) :
  currency_of_value s = Some currency → s = currency_value currency.
Proof.
  unfold currency_of_value. intros Hhead.
  apply head_Some in Hhead as [l Hl].
  assert (currency ∈ filter (λ c, currency_value c = s) all_currencies) as Hin
    by (rewrite Hl; apply list_elem_of_here).
  by apply list_elem_of_filter in Hin as [<- _].
Qed.

(** X13.  [CurrencyEnum] values name their members: the member looked up by a
    member's value is that member, a string names at most one member, and
    two members with one value are the same. *)
Theorem currency_of_value_round_trip (currency : CurrencyEnum) :
  currency_of_value (currency_value currency) = Some currency ∧
  (∀ s, currency_of_value s = Some currency → s = currency_value currency) ∧
  (∀ currency', currency_value currency' = currency_value currency →
                currency' = currency).
Proof.
  split; [apply currency_of_value_value|]. split; [apply currency_of_value_inv|].
  intros currency' Heq. pose proof (currency_of_value_value currency') as Hc.
  rewrite Heq, currency_of_value_value in Hc. congruence.
Qed.

(** X14.  The request model accepts a body exactly when its currency is the
    value of a member of [CurrencyEnum] and its amount is at least 1, and
    the model it builds carries that member and that amount. *)
Theorem validate_accepts (raw : Main.raw_transaction A) transaction :
  Main.validate raw = Return transaction ↔
    Main.raw_currency raw =
      currency_value (RequestTransactionModel.currency transaction) ∧
    amount_ge1 (Main.raw_amount raw) = true ∧
    RequestTransactionModel.amount transaction = Main.raw_amount raw.
Proof.
  unfold Main.validate. split.
  - destruct (currency_of_value _) as [currency|] eqn:Hc; [|done].
    destruct (amount_ge1 _) eqn:Hge; [|done]. intros [= <-]. simpl.
    by apply currency_of_value_inv in Hc.
  - intros (-> & -> & <-).
    rewrite currency_of_value_value. by destruct transaction.
Qed.

(** X15.  Through the validated route a deposit cannot be refused for a
    negative balance: for an ACTIVE user with one balance row in the
    currency, not negative, a body that passes validation is always
    applied, and the new balance is not negative either. *)
Theorem route_post_transaction_deposit
    now new_id user_id (raw : Main.raw_transaction A) session
    transaction user i user_balance :
  Main.validate raw = Return transaction →
  session_get_user (users session) user_id = Some user →
  User.status user = ACTIVE →
  scalar_one_or_none
    (Main.balance_of user_id (RequestTransactionModel.currency transaction))
    (balances session) = Return (Some (i, user_balance)) →
  non_negative user_balance →
  ∃ tr s',
    Main.route_post_transaction now new_id user_id raw session =
      (Return (Main.RespTransaction tr), s') ∧
    Transaction.status tr = processed ∧
    Transaction.amount tr = Main.raw_amount raw ∧
    ∃ user_balance', balances s' !! i = Some user_balance' ∧
      non_negative user_balance' ∧
      UserBalance.amount user_balance' =
        amount_add (UserBalance.amount user_balance) (Main.raw_amount raw).
Proof.
  intros Hv Huser Hactive Hbal Hnn.
  unfold Main.route_post_transaction. rewrite Hv.
  apply validate_amount in Hv as [Hraw Hge].
  assert (amount_lt0 (amount_add (UserBalance.amount user_balance)
                        (RequestTransactionModel.amount transaction)) = false)
    as Hnew by (apply amount_add_lt0; [done|by apply amount_ge1_lt0]).
  unfold Main.post_transaction. rewrite Huser, Hbal, Hnew.
  destruct (decide (User.status user ≠ ACTIVE)) as [|_]; [done|].
  eexists _, _. split; [reflexivity|]. simpl. split; [done|]. split; [done|].
  apply scalar_one_or_none_lookup in Hbal as [Hl _].
  eexists. split; [apply list_lookup_insert_eq; by eapply lookup_lt_Some|].
  split; [done|]. simpl. by rewrite Hraw.
Qed.

End Route.

(** ** The transaction listing *)

Section Listing.
Context {A : Type} `{Amount A}.

Implicit Types (session : Session A) (tr : Transaction.t A).

#[local] Instance created_desc_total : Total (MainUsers.created_desc (A:=A)).
Proof. intros t1 t2. unfold MainUsers.created_desc. lia. Qed.

#[local] Instance created_desc_transitive :
  Transitive (MainUsers.created_desc (A:=A)).
Proof. intros t1 t2 t3. unfold MainUsers.created_desc. lia. Qed.

(** X16.  [get_transactions] lists each transaction of the table once, or
    each of the given user when a [user_id] other than 0 is given, the
    later ones first; a [user_id] of 0 lists the transactions of all users,
    as no [user_id] does. *)
Theorem get_transactions_listing (user_id : option Z) session :
  let listed := MainUsers.get_transactions user_id session in
  (∀ tr, tr ∈ listed ↔
     tr ∈ transactions session ∧
     (user_id = None ∨ user_id = Some 0 ∨ user_id = Some (Transaction.user_id tr))) ∧
  StronglySorted MainUsers.created_desc listed ∧
  (user_id = None ∨ user_id = Some 0 → listed ≡ₚ transactions session) ∧
  (∀ n, user_id = Some n → n ≠ 0 →
     listed ≡ₚ filter (λ tr, Transaction.user_id tr = n) (transactions session)).
Proof.
  intros listed. subst listed. unfold MainUsers.get_transactions.
  split; [|split; [|split]].
  - intros tr. rewrite merge_sort_Permutation.
    destruct user_id as [n|]; simpl; [|intuition congruence].
    destruct (decide (n = 0)) as [->|Hn].
    + rewrite bool_decide_eq_true_2 by done. simpl. intuition congruence.
    + rewrite bool_decide_eq_false_2 by done. simpl.
      rewrite list_elem_of_filter. intuition congruence.
  - apply StronglySorted_merge_sort; apply _.
  - intros [->| ->]; simpl; apply merge_sort_Permutation.
  - intros n -> Hn. simpl. rewrite bool_decide_eq_false_2 by done. simpl.
    rewrite merge_sort_Permutation.
    induction (transactions session) as [|t ts IH]; [done|].
    rewrite !filter_cons.
    destruct (decide (Some (Transaction.user_id t) = Some n)) as [Heq|Hne];
      destruct (decide (Transaction.user_id t = n)) as [Heq'|Hne'];
      try congruence; by rewrite IH.
Qed.

End Listing.

(** ** More of the aggregator *)

Section AggregatorBounds.
Context {A : Type} `{Amount A}.
Variable q : Tasks.Queries A.

Implicit Types (e : Tasks.entry A) (results : list (Tasks.entry A)).

Lemma StronglySorted_filter {T : Type} (R : relation T) (P : T → Prop)
    `{!∀ x, Decision (P x)} (l : list T) :
  StronglySorted R l → StronglySorted R (filter P l).
Proof.
  induction 1 as [|x l Hl IH Hx]; [constructor|].
  rewrite filter_cons. destruct (decide (P x)); [|done].
  constructor; [done|]. apply Forall_forall. intros y [_ Hy]%list_elem_of_filter.
  by apply (proj1 (Forall_forall _ _) Hx).
Qed.

Lemma StronglySorted_bucket dt_gt dt_lt (k n : nat) :
  StronglySorted
    (λ e1 e2, Tasks.end_date e2 < Tasks.end_date e1 ∧
              Tasks.start_date e2 < Tasks.start_date e1)
    (bucket q dt_gt dt_lt <$> seq k n).
Proof.
  revert k. induction n as [|n IH]; intros k; simpl; [constructor|].
  constructor; [apply IH|].
  apply Forall_fmap, Forall_forall. intros j [Hj _]%elem_of_seq. simpl. lia.
Qed.

(** X17.  The entries [get_transaction_analysis] returns come most recent
    first, each one ending and starting before the one ahead of it, and
    there are at most [weeks] of them. *)
Theorem get_transaction_analysis_descending today weeks results :
  Tasks.get_transaction_analysis q today weeks = Return results →
  StronglySorted
    (λ e1 e2, Tasks.end_date e2 < Tasks.end_date e1 ∧
              Tasks.start_date e2 < Tasks.start_date e1) results ∧
  Z.of_nat (length results) ≤ Z.max 0 weeks.
Proof.
  intros ->%get_transaction_analysis_results. split.
  - apply StronglySorted_filter, StronglySorted_bucket.
  - pose proof (length_filter emitted
        (bucket q (today - 7 * weeks) today <$> seq 0 (Z.to_nat weeks))) as Hlen.
    rewrite length_fmap, length_seq in Hlen. lia.
Qed.

Lemma scan_outcome n : ∀ dt_gt dt_lt acc,
  (scan_in_range n dt_gt dt_lt →
     ∃ results, Tasks.scan q n dt_gt dt_lt acc = Return results) ∧
  (¬ scan_in_range n dt_gt dt_lt →
     Tasks.scan q n dt_gt dt_lt acc = Raise OverflowError).
Proof.
  unfold scan_in_range, date_min, date_max.
  induction n as [|n IH]; intros dt_gt dt_lt acc.
  - split; [by eauto|]. intros Hno. destruct Hno. by left.
  - rewrite scan_S. unfold date_sub, date_min, date_max.
    destruct (decide (1 ≤ dt_gt - 7 ≤ 3652059)) as [Hgt|Hgt];
      [|split; [lia|done]].
    destruct (decide (1 ≤ dt_lt - 7 ≤ 3652059)) as [Hlt|Hlt];
      [|split; [lia|done]].
    cbv zeta.
    split; intros Hr.
    + apply IH. destruct n; [by left|right; lia].
    + apply IH. destruct n; [lia|]. lia.
Qed.

(** X18.  [get_transaction_analysis(weeks)] returns exactly when every date it
    computes is a date: [today - 7*weeks] and, for a positive [weeks], the
    start [today - 14*weeks] of the bucket after the last one scanned.
    Otherwise it raises [OverflowError]; for [weeks] zero or negative it
    returns no entry. *)
Theorem get_transaction_analysis_overflow today weeks :
  let in_range :=
    Z.abs (7 * weeks) ≤ 999999999 ∧
    date_min ≤ today - 7 * weeks ≤ date_max ∧
    (0 < weeks → date_min ≤ today - 14 * weeks ∧ today - 7 ≤ date_max) in
  (in_range → ∃ results, Tasks.get_transaction_analysis q today weeks = Return results) ∧
  (¬ in_range → Tasks.get_transaction_analysis q today weeks = Raise OverflowError) ∧
  (in_range → weeks ≤ 0 → Tasks.get_transaction_analysis q today weeks = Return []).
Proof.
  intros in_range. subst in_range.
  unfold Tasks.get_transaction_analysis, mbind, result_bind, timedelta_weeks, date_sub.
  destruct (decide (Z.abs (7 * weeks) ≤ 999999999)) as [Habs|Habs];
    [|split; [tauto|split; [done|tauto]]].
  destruct (decide (date_min ≤ today - 7 * weeks ≤ date_max)) as [Hd|Hd];
    [|split; [tauto|split; [done|tauto]]].
  destruct (scan_outcome (Z.to_nat weeks) (today - 7 * weeks) today [])
    as [Hok Hno].
  unfold scan_in_range, date_min, date_max in *.
  split; [|split].
  - intros (_ & _ & Hw). apply Hok. destruct (decide (0 < weeks)); [right|left]; lia.
  - intros Hnot. apply Hno. intros [Hz|Hr]; apply Hnot.
    + repeat split; try lia.
    + repeat split; try lia.
  - intros _ Hw. by replace (Z.to_nat weeks) with 0%nat by lia.
Qed.

End AggregatorBounds.

(** ** One user per email *)

Section Emails.
Context {A : Type} `{Amount A}.

Implicit Types (session : Session A).

Lemma perform_emails_unique session (a : MainUsers.action A) :
  emails_unique session → emails_unique (MainUsers.perform session a).
Proof.
  intros Huniq email.
  destruct a as [now new_id balance_id email'|uid status
                |now new_id uid transaction|uid transaction_id]; simpl.
  - destruct (MainUsers.post_user _ _ _ _ _) as [r s'] eqn:Hrun.
    apply post_user_shape in Hrun as [[_ ->]|[Hnone ->]]; [apply Huniq|]. simpl.
    rewrite select_where_app, length_app. simpl.
    destruct (decide (email' = email)) as [->|Hne].
    + rewrite bool_decide_eq_true_2 by done. unfold scalar_one_or_none in Hnone.
      by destruct (select_where _ 0 (users session)) as [|? [|? ?]].
    + rewrite bool_decide_eq_false_2 by done. simpl. rewrite Nat.add_0_r.
      apply Huniq.
  - destruct (MainUsers.patch_user _ _ _) as [r s'] eqn:Hrun.
    apply patch_user_shape in Hrun as [[_ ->]|(i & u & Hu & _ & _ & ->)];
      [apply Huniq|].
    simpl. apply scalar_one_or_none_lookup in Hu as [Hu _].
    rewrite (select_where_insert_length _ _ 0 i u) by done. apply Huniq.
  - destruct (Main.post_transaction _ _ _ _ _) as [r s'] eqn:Hrun.
    apply post_transaction_shape in Hrun
      as [[_ ->]|(i & ub & _ & _ & _ & ->)]; apply Huniq.
  - destruct (Main.patch_rollback_transaction _ _ _) as [r s'] eqn:Hrun.
    apply patch_rollback_transaction_shape in Hrun
      as [[_ ->]|(i & tr & j & ub & _ & _ & _ & _ & _ & _ & ->)]; apply Huniq.
Qed.

(** X19.  Emails stay unique.  If no two users of a store share an email, no
    sequence of requests makes two users share one, and the email query of
    [post_user] never finds several rows: a registration either succeeds or
    is refused with [UserAlreadyExistsException]. *)
Theorem run_emails_unique (acts : list (MainUsers.action A)) session :
  emails_unique session →
  emails_unique (MainUsers.run acts session) ∧
  ∀ now new_id balance_id email,
    Forall (λ u, User.id u ≠ new_id) (users (MainUsers.run acts session)) →
    let outcome :=
      (MainUsers.post_user now new_id balance_id email
         (MainUsers.run acts session)).1 in
    (∃ v, outcome = UReturn (Some v)) ∨
    outcome = URaise (UserAlreadyExistsException 409
                        ("User with email=`" +:+ email +:+ "` already exists")).
Proof.
  intros Huniq.
  assert (emails_unique (MainUsers.run acts session)) as Hfinal.
  { unfold MainUsers.run. revert session Huniq.
    induction acts as [|a acts IH]; intros session Huniq; simpl; [done|].
    by apply IH, perform_emails_unique. }
  split; [done|]. intros now new_id balance_id email Hfresh outcome.
  subst outcome. rewrite post_user_unfold. specialize (Hfinal email).
  destruct (scalar_one_or_none (λ u, bool_decide (User.email u = email)) _)
    as [[[i u]|]|] eqn:Hq.
  - by right.
  - left. cbv zeta. cbn [users].
    rewrite (scalar_one_or_none_fresh _ _ (User.Build new_id email ACTIVE now)).
    + by eauto.
    + by apply bool_decide_eq_true_2.
    + apply select_where_none. eapply Forall_impl; [exact Hfresh|].
      intros u Hu. by apply bool_decide_eq_false_2.
  - unfold scalar_one_or_none in Hq.
    destruct (select_where _ 0 _) as [|? [|? ?]]; simpl in *; [done|done|lia].
Qed.

End Emails.

(** ** More worked instances *)

Lemma run_non_negative_witness :
  Forall non_negative (balances (MainUsers.run Sample.opening Sample.session0)).
Proof.
  apply run_non_negative. unfold Sample.session0, non_negative. simpl.
  repeat constructor.
Defined.

Lemma patch_rollback_transaction_success_witness :
  ∃ s',
    Main.patch_rollback_transaction 1 1 Sample.session0 =
      (Return (Transaction.Build 1 1 USD 50 roll_backed 110), s') ∧
    UserBalance.amount <$> balances s' !! 0%nat = Some 0.
Proof.
  destruct (patch_rollback_transaction_success (A:=Z) 1 1 Sample.session0
              Sample.alice 0%nat (Transaction.Build 1 1 USD 50 processed 110)
              0%nat (UserBalance.Build 1 1 USD 50 100)
              eq_refl ltac:(discriminate) eq_refl eq_refl eq_refl eq_refl eq_refl)
    as (s' & Hrun & _ & Hrow & _).
  exists s'. split; [exact Hrun|]. by rewrite Hrow.
Defined.

Lemma patch_rollback_transaction_not_owner_witness :
  Main.patch_rollback_transaction 1 3 Sample.session0 =
    (Raise (TransactionDoesNotBelongToUserException 400
       "Transaction with id=`3` does not belong to user with id=`1`"),
     Sample.session0).
Proof.
  apply (proj2 (patch_rollback_transaction_not_owner (A:=Z) 1 3 Sample.session0
                  2%nat (Transaction.Build 3 2 USD 20 roll_backed 112)
                  eq_refl ltac:(discriminate)) Sample.alice eq_refl).
  discriminate.
Defined.

Lemma patch_user_blocks_witness :
  Main.post_transaction 200 5 1 (RequestTransactionModel.Build USD 10)
    (MainUsers.patch_user 1 BLOCKED Sample.session0).2 =
    (Raise (HTTPException 400 "User with id 1 is blocked"),
     (MainUsers.patch_user 1 BLOCKED Sample.session0).2).
Proof.
  apply (proj1 (patch_user_blocks (A:=Z) 1 Sample.session0
                  (set_user_status BLOCKED Sample.alice)
                  (MainUsers.patch_user 1 BLOCKED Sample.session0).2 eq_refl)).
Defined.

Lemma patch_user_round_trip_witness :
  ∃ u, MainUsers.patch_user 1 ACTIVE
         (MainUsers.patch_user 1 BLOCKED Sample.session0).2
       = (UReturn u, Sample.session0).
Proof.
  destruct (patch_user_round_trip (A:=Z) 1 BLOCKED Sample.session0
              (set_user_status BLOCKED Sample.alice)
              (MainUsers.patch_user 1 BLOCKED Sample.session0).2 ACTIVE
              eq_refl ltac:(discriminate)) as (u & Hrun & _).
  by exists u.
Defined.

Lemma patch_user_twice_witness :
  MainUsers.patch_user 1 BLOCKED (MainUsers.patch_user 1 BLOCKED Sample.session0).2 =
    (URaise (UserAlreadyHasThisStatus 400 "User is already BLOCKED"),
     (MainUsers.patch_user 1 BLOCKED Sample.session0).2).
Proof.
  apply (patch_user_twice (A:=Z) 1 BLOCKED Sample.session0
           (set_user_status BLOCKED Sample.alice)
           (MainUsers.patch_user 1 BLOCKED Sample.session0).2 eq_refl).
Defined.

Lemma post_user_registers_witness :
  (MainUsers.post_user 100 1 Sample.balance_ids "alice@example.com" Sample.empty).1 =
    UReturn (Some (User.Build 1 "alice@example.com" ACTIVE 100,
                   opening_balances 100 1 Sample.balance_ids)).
Proof.
  destruct (post_user_registers (A:=Z) 100 1 Sample.balance_ids "alice@example.com"
              Sample.empty eq_refl ltac:(constructor) ltac:(constructor))
    as [Hrun _].
  by rewrite Hrun.
Defined.

Lemma post_user_then_post_transaction_witness :
  ∃ s2,
    Main.post_transaction 110 1 1 (RequestTransactionModel.Build EUR 50)
      (MainUsers.post_user 100 1 Sample.balance_ids "alice@example.com"
         Sample.empty).2 =
    (Return (Main.RespTransaction (Transaction.Build 1 1 EUR 50 processed 110)), s2).
Proof.
  destruct (post_user_then_post_transaction (A:=Z) 100 1 Sample.balance_ids
              "alice@example.com" Sample.empty
              (Some (User.Build 1 "alice@example.com" ACTIVE 100,
                     opening_balances 100 1 Sample.balance_ids))
              (MainUsers.post_user 100 1 Sample.balance_ids "alice@example.com"
                 Sample.empty).2
              110 1 (RequestTransactionModel.Build EUR 50)
              eq_refl ltac:(constructor) ltac:(constructor) eq_refl)
    as (s2 & Hrun & _).
  by exists s2.
Defined.

Lemma post_user_twice_witness :
  MainUsers.post_user 120 2 Sample.balance_ids "alice@example.com"
    (MainUsers.post_user 100 1 Sample.balance_ids "alice@example.com" Sample.empty).2
  = (URaise (UserAlreadyExistsException 409
       "User with email=`alice@example.com` already exists"),
     (MainUsers.post_user 100 1 Sample.balance_ids "alice@example.com"
        Sample.empty).2).
Proof.
  apply (post_user_twice (A:=Z) 100 1 Sample.balance_ids "alice@example.com"
           Sample.empty
           (Some (User.Build 1 "alice@example.com" ACTIVE 100,
                  opening_balances 100 1 Sample.balance_ids))
           (MainUsers.post_user 100 1 Sample.balance_ids "alice@example.com"
              Sample.empty).2
           120 2 Sample.balance_ids eq_refl).
Defined.

Lemma run_balance_keys_unique_witness :
  balance_keys_unique (MainUsers.run Sample.opening Sample.empty).
Proof.
  apply (run_balance_keys_unique (A:=Z) Sample.opening Sample.empty).
  - intros user_id currency. simpl. lia.
  - apply (bool_decide_unpack _). vm_compute. exact I.
  - constructor.
Defined.

Lemma route_post_transaction_deposit_witness :
  ∃ tr s',
    Main.route_post_transaction 200 5 1 (Main.RawTransaction "USD" 25)
      Sample.session0 = (Return (Main.RespTransaction tr), s') ∧
    Transaction.status tr = processed.
Proof.
  edestruct (route_post_transaction_deposit (A:=Z) 200 5 1
               (Main.RawTransaction "USD" 25) Sample.session0
               (RequestTransactionModel.Build USD 25) Sample.alice 0%nat
               (UserBalance.Build 1 1 USD 50 100))
    as (tr & s' & Hrun & Hst & _).
  - vm_compute. reflexivity.
  - reflexivity.
  - reflexivity.
  - reflexivity.
  - reflexivity.
  - by exists tr, s'.
Defined.

Lemma get_transaction_analysis_descending_witness :
  Z.of_nat (length Sample.analysis_D) ≤ Z.max 0 3.
Proof.
  apply (get_transaction_analysis_descending (H:=Z_amount) Sample.queries_D
           Sample.today 3 Sample.analysis_D).
  vm_compute. reflexivity.
Defined.

Lemma run_emails_unique_witness :
  emails_unique (MainUsers.run Sample.opening Sample.empty).
Proof.
  apply (run_emails_unique (A:=Z) Sample.opening Sample.empty).
  intros email. simpl. lia.
Defined.
